(** * Multi-GPU Keras/TensorFlow example scripts

    A shallow embedding of the three example scripts

      - [examples/alexnet_cifar10.py]                       (module [Alexnet])
      - [examples/bzamecnik/.../keras_staging_area_resnet50.py]
                                                            (module [Resnet50])
      - [examples/avolkov1/cifar/cifar10_cnn_mgpu_tfqueue.py]
                                                            (module [Tfqueue])

    The scripts are glue code over Python's [argparse], Keras and
    TensorFlow.  Each script is embedded as a function that threads an
    explicit world (weight files on disk, the graph's queue runners, the
    started threads, the log of framework calls); the framework entry
    points the scripts call are modelled next to them, after their
    documented behaviour, in the modules [Py], [Argparse], [Keras] and
    [TF]. *)

From Stdlib Require Import ZArith Floats Ascii String.
From stdpp Require Import gmap strings list pretty.

Set Warnings "-inexact-float".
Open Scope Z_scope.

(* ===================================================================== *)
(** ** Python values, exceptions and built-ins *)
(* ===================================================================== *)

Module Py.

Inductive exn :=
| ZeroDivisionError
| IndexError
| ValueError
| TypeError
| AttributeError (name : string)
| IOError (path : string)
| ArgumentError (option_string : string)
| SystemExit (code : Z).

(** A computation that may raise: [inl e] is the exception. *)
Definition result (A : Type) : Type := (exn + A)%type.

Definition bind {A B} (r : result A) (k : A -> result B) : result B :=
  match r with inl e => inl e | inr a => k a end.

(** A script run over a state [S] (a log of calls, a world): the state
    survives an exception. *)
Definition M (S A : Type) : Type := S -> S * result A.

Definition ret {S A} (a : A) : M S A := fun s => (s, inr a).
Definition raise {S A} (e : exn) : M S A := fun s => (s, inl e).
Definition lift {S A} (r : result A) : M S A := fun s => (s, r).
Definition mbind {S A B} (c : M S A) (k : A -> M S B) : M S B :=
  fun s =>
    match c s with
    | (s', inr a) => k a s'
    | (s', inl e) => (s', inl e)
    end.

(** [bool(s)] on a string: only the empty string is falsy. *)
Definition bool_of_str (s : string) : bool :=
  match s with EmptyString => false | String _ _ => true end.

(** [a // b] on integers: floor division, [ZeroDivisionError] on 0. *)
Definition floordiv (a b : Z) : result Z :=
  if b =? 0 then inl ZeroDivisionError else inr (a / b).

Definition digit_of (c : ascii) : option Z :=
  let n := Z.of_nat (nat_of_ascii c) in
  if (48 <=? n) && (n <=? 57) then Some (n - 48) else None.

Fixpoint digits_value (acc : Z) (s : string) : option Z :=
  match s with
  | EmptyString => Some acc
  | String c r =>
      match digit_of c with
      | Some d => digits_value (10 * acc + d) r
      | None => None
      end
  end.

Definition unsigned_of_str (s : string) : option Z :=
  match s with
  | EmptyString => None
  | String _ _ => digits_value 0 s
  end.

(** [int(s)] on the decimal literals [[+-]?[0-9]+]; anything else is
    taken to raise [ValueError] (surrounding blanks and digit-group
    underscores, which Python also accepts, are not modelled). *)
Definition int_of_str (s : string) : result Z :=
  match s with
  | String "-" r =>
      match unsigned_of_str r with Some v => inr (- v) | None => inl ValueError end
  | String "+" r =>
      match unsigned_of_str r with Some v => inr v | None => inl ValueError end
  | _ =>
      match unsigned_of_str s with Some v => inr v | None => inl ValueError end
  end.

Definition startswith (p s : string) : bool := String.prefix p s.

Fixpoint endswith_slash (s : string) : bool :=
  match s with
  | EmptyString => false
  | String c EmptyString => if Ascii.eqb c "/" then true else false
  | String _ r => endswith_slash r
  end.

(** [os.path.join(a, b)] on POSIX paths. *)
Definition path_join (a b : string) : string :=
  if startswith "/" b then b
  else match a with
       | EmptyString => b
       | String _ _ => if endswith_slash a then a +:+ b else a +:+ "/" +:+ b
       end.

Fixpoint replace_char (x y : ascii) (s : string) : string :=
  match s with
  | EmptyString => EmptyString
  | String c r => String (if Ascii.eqb c x then y else c) (replace_char x y r)
  end.

(** [numpy]: [arr[lo:hi] = data] along the first axis.  The slice is
    clipped to the array; [data] must have as many rows as the slice, or
    one row (which is broadcast); otherwise [ValueError]. *)
Definition assign_slice {A} (arr : list A) (lo hi : Z) (data : list A)
  : result (list A) :=
  let n := Z.of_nat (length arr) in
  let lo' := Z.min (Z.max lo 0) n in
  let hi' := Z.min (Z.max hi 0) n in
  let len := Z.max (hi' - lo') 0 in
  if Z.of_nat (length data) =? len then
    inr (take (Z.to_nat lo') arr ++ data ++ drop (Z.to_nat (lo' + len)) arr)
  else
    match data with
    | [d] => inr (take (Z.to_nat lo') arr ++ replicate (Z.to_nat len) d
                    ++ drop (Z.to_nat (lo' + len)) arr)
    | _ => inl ValueError
    end.

End Py.

Declare Scope py_scope.
Delimit Scope py_scope with py.
Notation "x <- c ;; k" := (Py.mbind c (fun x => k))
  (at level 100, c at next level, right associativity) : py_scope.
Notation "c ;; k" := (Py.mbind c (fun _ => k))
  (at level 100, right associativity) : py_scope.

(* ===================================================================== *)
(** ** [argparse]

    The fragment of [argparse] the scripts rely on: optional arguments
    given by their exact option string, each value in a token of its own.
    Unique-prefix abbreviations, the [--opt=value] and [-oVALUE] spellings,
    [--] and positional arguments are not modelled: such command lines are
    rejected here ([SystemExit 2]). *)
(* ===================================================================== *)

Module Argparse.
Import Py.

Inductive value :=
| VNone
| VBool (b : bool)
| VInt (z : Z)
| VStr (s : string).

(** The [type=] keyword: the converter applied to a value token. *)
Inductive conv := TypeStr | TypeInt | TypeBool.

Inductive action :=
| Store                       (* action='store', one value *)
| StoreOptional (const : value)   (* action='store', nargs='?', const=... *)
| StoreTrue                   (* action='store_true' *)
| Help.                       (* the -h/--help every parser starts with *)

Inductive default_value := Default (v : value) | SUPPRESS.

Record argument := Argument {
  option_strings : list string;
  act : action;
  type : conv;
  dflt : default_value;
  help : string
}.

Definition parser := list argument.
Definition namespace := gmap string value.

(** [ArgumentParser(...)]: a fresh parser knows [-h]/[--help]. *)
Definition ArgumentParser : parser :=
  [ Argument ["-h"; "--help"] Help TypeStr SUPPRESS "show this help message and exit" ].

(** [s.lstrip('-')]. *)
Fixpoint strip_dashes (s : string) : string :=
  match s with
  | String "-" r => strip_dashes r
  | _ => s
  end.

(** The attribute an optional argument is stored under: the first long
    option string (else the first option string), without its dashes,
    with [-] turned into [_]. *)
Definition dest (a : argument) : string :=
  let long := filter (fun s => startswith "--" s = true) (option_strings a) in
  match long, option_strings a with
  | l :: _, _ => replace_char "-" "_" (strip_dashes l)
  | [], s :: _ => replace_char "-" "_" (strip_dashes s)
  | [], [] => ""
  end.

Definition declares (a : argument) (opt : string) : bool :=
  bool_decide (opt ∈ option_strings a).

Definition find_option (p : parser) (opt : string) : option argument :=
  List.find (fun a => declares a opt) p.

(** [parser.add_argument(...)]: an option string already taken is an
    [ArgumentError] (the default conflict handler). *)
Definition add_argument (p : parser) (a : argument) : result parser :=
  match List.find (fun o => match find_option p o with Some _ => true | None => false end)
                  (option_strings a) with
  | Some o => inl (ArgumentError o)
  | None => inr (p ++ [a])
  end.

Definition convert (t : conv) (s : string) : result value :=
  match t with
  | TypeStr => inr (VStr s)
  | TypeBool => inr (VBool (bool_of_str s))
  | TypeInt =>
      match int_of_str s with
      | inr z => inr (VInt z)
      | inl _ => inl (SystemExit 2)
      end
  end.

(** A token is taken as a value (not an option) when it does not start
    with [-], is [-] alone, or reads as a negative integer.  The test is
    sufficient, not necessary: [argparse] takes some other dash-led
    tokens as values too (negative decimal fractions, tokens with a
    blank), on which this parser stops with a usage error.  What is
    stated of a value below is stated of the tokens that pass this
    test. *)
Definition is_value_token (s : string) : bool :=
  match s with
  | String "-" EmptyString => true
  | String "-" r => match unsigned_of_str r with Some _ => true | None => false end
  | _ => true
  end.

Definition set_default (ns : namespace) (a : argument) : namespace :=
  match dflt a, ns !! dest a with
  | Default v, None => <[dest a := v]> ns
  | _, _ => ns
  end.

Definition defaults (p : parser) : namespace := foldl set_default ∅ p.

Fixpoint parse_tokens (p : parser) (toks : list string) (ns : namespace)
  : result namespace :=
  match toks with
  | [] => inr ns
  | t :: rest =>
      match find_option p t with
      | None => inl (SystemExit 2)
      | Some a =>
          match act a with
          | Help => inl (SystemExit 0)
          | StoreTrue => parse_tokens p rest (<[dest a := VBool true]> ns)
          | Store =>
              match rest with
              | v :: rest' =>
                  if is_value_token v then
                    match convert (type a) v with
                    | inr x => parse_tokens p rest' (<[dest a := x]> ns)
                    | inl e => inl e
                    end
                  else inl (SystemExit 2)
              | [] => inl (SystemExit 2)
              end
          | StoreOptional c =>
              match rest with
              | v :: rest' =>
                  if is_value_token v then
                    match convert (type a) v with
                    | inr x => parse_tokens p rest' (<[dest a := x]> ns)
                    | inl e => inl e
                    end
                  else parse_tokens p rest (<[dest a := c]> ns)
              | [] => inr (<[dest a := c]> ns)
              end
          end
      end
  end.

(** [parser.parse_args()] on the tokens after the program name. *)
Definition parse_args (p : parser) (argv : list string) : result namespace :=
  parse_tokens p argv (defaults p).

(** [args.name]: a missing attribute raises. *)
Definition getattr (ns : namespace) (name : string) : result value :=
  match ns !! name with
  | Some v => inr v
  | None => inl (AttributeError name)
  end.

(** [getattr(args, name, None)]. *)
Definition getattr_default (ns : namespace) (name : string) : value :=
  default VNone (ns !! name).

(** Python truthiness of an argument value. *)
Definition truthy (v : value) : bool :=
  match v with
  | VNone => false
  | VBool b => b
  | VInt z => negb (z =? 0)
  | VStr s => bool_of_str s
  end.

Definition is_none (v : value) : bool :=
  match v with VNone => true | _ => false end.

End Argparse.

(* ===================================================================== *)
(** ** TensorFlow: tensors, queue runners, threads *)
(* ===================================================================== *)

Module TF.

(** Symbolic tensors: what a tensor was built from. *)
Inductive tensor :=
| Constant (name : string)                    (* tf.constant(array) *)
| Sliced (src : tensor) (shuffle : bool)      (* one output of slice_input_producer *)
| Reshaped (t : tensor)
| RandomFlipLeftRight (t : tensor)
| RandomBrightness (t : tensor) (max_delta : Z)
| RandomContrast (t : tensor) (lower upper : float)
| PerImageStandardization (t : tensor)
| Batched (queue : string) (t : tensor)       (* one output of tf.train.batch *)
| Placeholder (shape : list Z)                (* Input(shape=...) *)
| InputTensor (t : tensor).                   (* Input(tensor=t) *)

(** A queue runner of the graph's [QUEUE_RUNNERS] collection: its queue,
    its number of enqueue operations (one thread each), and whether
    its threads were already created for the session. *)
Record queue_runner := QueueRunner {
  qr_queue : string;
  qr_enqueue_ops : nat;
  qr_started : bool
}.

(** A started thread and the coordinator it is registered with. *)
Record thread := Thread {
  th_queue : string;
  th_index : nat;
  th_coord : option nat
}.

(** [QueueRunner.create_threads(sess, coord, daemon=True, start=True)]:
    nothing when the runner already runs in the session; otherwise one
    thread per enqueue operation, and with a coordinator one more that
    closes the queue on stop; each is registered with [coord] when
    there is one. *)
Definition create_threads (coord : option nat) (qr : queue_runner) : list thread :=
  if qr_started qr then []
  else
    let n := match coord with
             | Some _ => S (qr_enqueue_ops qr)
             | None => qr_enqueue_ops qr
             end in
    map (fun i => Thread (qr_queue qr) i coord) (seq 0 n).

Definition mark_started (qr : queue_runner) : queue_runner :=
  QueueRunner (qr_queue qr) (qr_enqueue_ops qr) true.

(** The threads [tf.train.start_queue_runners(sess, coord)] returns. *)
Definition started_by (coord : option nat) (qrs : list queue_runner) : list thread :=
  concat (map (create_threads coord) qrs).

End TF.

(* ===================================================================== *)
(** ** Keras: arrays, layers, models, weights, callbacks *)
(* ===================================================================== *)

Module Keras.
Import Py.

(** An image of an array, symbolically: only the number of rows of the
    image arrays matters to the scripts. *)
Inductive image :=
| Raw (pixels : list Z)
| Zero                                   (* a row of np.zeros(...) *)
| Transposed (img : image)               (* x.transpose(0, 2, 3, 1) *)
| Float32Div (img : image) (d : Z).      (* x.astype('float32') / d *)

(** [(x_train, y_train), (x_test, y_test)]: images and class numbers
    (the label arrays have shape [(n, 1)]), with the shape of one image,
    the same in both image arrays. *)
Record dataset := Dataset {
  sample_shape : list Z;                 (* x_train.shape[1:] *)
  x_train : list image;
  y_train : list Z;
  x_test : list image;
  y_test : list Z
}.

(** [x.astype('float32') / 255], row by row. *)
Definition scale255 (x : list image) : list image :=
  map (fun i => Float32Div i 255) x.

(** A row of zeros with a one at column [k]. *)
Definition one_hot (num_classes k : Z) : list Z :=
  map (fun j => if j =? k then 1 else 0) (seqZ 0 num_classes).

(** The column [categorical[i, k] = 1] writes to: a negative [k] counts
    from the end; out of range is an [IndexError]. *)
Definition column (num_classes k : Z) : result Z :=
  if (0 <=? k) && (k <? num_classes) then inr k
  else if (- num_classes <=? k) && (k <? 0) then inr (k + num_classes)
  else inl IndexError.

Fixpoint categorical_rows (num_classes : Z) (y : list Z) : result (list (list Z)) :=
  match y with
  | [] => inr []
  | k :: ys =>
      bind (column num_classes k) (fun c =>
      bind (categorical_rows num_classes ys) (fun rows =>
      inr (one_hot num_classes c :: rows)))
  end.

(** [keras.utils.to_categorical(y, num_classes)]:
<<
    y = np.array(y, dtype='int').ravel()
    if not num_classes: num_classes = np.max(y) + 1
    n = y.shape[0]
    categorical = np.zeros((n, num_classes))
    categorical[np.arange(n), y] = 1
>>  *)
Definition to_categorical (y : list Z) (num_classes : Z) : result (list (list Z)) :=
  bind (if num_classes =? 0 then
          match y with
          | [] => inl ValueError
          | k :: ys => inr (foldr Z.max k ys + 1)
          end
        else inr num_classes) (fun nc =>
  if nc <? 0 then inl ValueError else categorical_rows nc y).

Inductive padding := PadValid | PadSame.

Inductive train_input :=
| InTensor (t : TF.tensor)
| InShape (shape : list Z).

Inductive layer :=
| Conv2D (filters : Z) (kernel_size : Z * Z) (pad : padding) (activation : option string)
| Activation (name : string)
| MaxPooling2D (pool_size : Z * Z) (strides : option (Z * Z)) (pad : padding)
| Dropout (rate : float)
| Flatten
| Dense (units : Z) (activation : option string).

(** A [Sequential] model: its [InputLayer] and the layers added after. *)
Record sequential := Seq {
  seq_input : train_input;
  seq_layers : list layer
}.

Inductive model :=
| Sequential (s : sequential)
| Model (inputs : list TF.tensor) (outputs : list (TF.tensor * list layer))
| Parallel (base : model) (gdevs : list string).   (* make_parallel(base, gdevs) *)

(** [InputLayer(input_tensor=t)] feeds [t]; [InputLayer(input_shape=s)]
    makes a placeholder. *)
Definition input_of (i : train_input) : TF.tensor :=
  match i with
  | InTensor t => t
  | InShape s => TF.Placeholder s
  end.

(** The outputs of a model: each a layer stack applied to an input.  The
    replicas of a parallel model compute the outputs of its base. *)
Fixpoint outputs_of (m : model) : list (TF.tensor * list layer) :=
  match m with
  | Sequential s => [(input_of (seq_input s), seq_layers s)]
  | Model _ outs => outs
  | Parallel b _ => outputs_of b
  end.

(** The layer structure of a model. *)
Definition layers_of (m : model) : list (list layer) := map snd (outputs_of m).

(** Weights of a model, by provenance. *)
Inductive weights :=
| Initialized                             (* fresh, from the initializers *)
| Stored (tag : Z)                        (* the content of a file found on disk *)
| Trained (start : weights) (epochs : Z). (* after so many epochs from [start] *)

Inductive optimizer :=
| RMSprop (lr decay : float)
| SGD.

Inductive callback :=
| SamplesPerSec (batch_size : Z)
| ModelCheckpoint (filepath : option string) (monitor : string) (verbose : Z)
                  (save_best_only : bool).

Definition is_gauge (c : callback) : bool :=
  match c with SamplesPerSec _ => true | ModelCheckpoint _ _ _ _ => false end.

Definition checkpoint_path (c : callback) : option string :=
  match c with SamplesPerSec _ => None | ModelCheckpoint p _ _ _ => p end.

Record image_data_generator := ImageDataGenerator {
  featurewise_center : bool;
  samplewise_center : bool;
  featurewise_std_normalization : bool;
  samplewise_std_normalization : bool;
  zca_whitening : bool;
  rotation_range : Z;
  width_shift_range : float;
  height_shift_range : float;
  horizontal_flip : bool;
  vertical_flip : bool
}.

(** [datagen.flow(x, y, batch_size=...)]. *)
Record flow := Flow {
  flow_gen : image_data_generator;
  flow_x : list image;
  flow_y : list (list Z);
  flow_batch_size : Z
}.

(** The keyword arguments of [model.fit]. *)
Record fit_args := FitArgs {
  fit_x : option (list image);
  fit_y : option (list (list Z));
  fit_batch_size : option Z;
  fit_epochs : Z;
  fit_validation_data : option (list image * list (list Z));
  fit_shuffle : bool;
  fit_validation_steps : option bool;
  fit_steps_per_epoch : option Z;
  fit_callbacks : list callback
}.

(** Calls into the framework, as the scripts make them. *)
Inductive call :=
| Compile (m : model) (loss : string) (opt : optimizer) (metrics : list string)
          (target_tensors : list TF.tensor)
| Fit (m : model) (kw : fit_args)
| DatagenFit (g : image_data_generator) (x : list image)
| FitGenerator (m : model) (gen : flow) (steps_per_epoch epochs : Z)
               (validation_data : list image * list (list Z))
| PrintResults (gauge : callback)
| SaveWeights (m : model) (path : string)
| LoadWeights (m : model) (path : string)
| SessionRun (t : TF.tensor)
| Evaluate (m : model) (w : weights) (augmented : bool)
| TrainBatch (queue : string) (batch_size capacity num_threads : Z)
| SetSession (allow_soft_placement log_device_placement : bool)
| StartQueueRunners (coord : option nat)
| RequestStop (coord : nat)
| Join (coord : nat) (threads : list TF.thread)
| ClearSession.

(** The framework function a call goes to. *)
Definition call_name (c : call) : string :=
  match c with
  | Compile _ _ _ _ _ => "compile"
  | Fit _ _ => "fit"
  | DatagenFit _ _ => "datagen.fit"
  | FitGenerator _ _ _ _ _ => "fit_generator"
  | PrintResults _ => "print_results"
  | SaveWeights _ _ => "save_weights"
  | LoadWeights _ _ => "load_weights"
  | SessionRun _ => "sess.run"
  | Evaluate _ _ _ => "evaluate"
  | TrainBatch _ _ _ _ => "tf.train.batch"
  | SetSession _ _ => "set_session"
  | StartQueueRunners _ => "tf.train.start_queue_runners"
  | RequestStop _ => "request_stop"
  | Join _ _ => "join"
  | ClearSession => "clear_session"
  end.

End Keras.

(* ===================================================================== *)
(** ** [examples/alexnet_cifar10.py] *)
(* ===================================================================== *)

Module Alexnet.
Import Py Argparse Keras.
Local Open Scope py_scope.

Definition num_classes : Z := 10.

(** What the script takes from outside: [cifar10.load_data()]. *)
Record env := Env {
  cifar10_load_data : result dataset
}.

(** A run of the script: the log of its calls into Keras. *)
Definition run : Type -> Type := M (list call).

Definition invoke (c : call) : run unit := fun log => (log ++ [c], inr tt).

Definition data : Type :=
  (list image * list image) * (list (list Z) * list (list Z)).

Definition load_data (e : env) : result (list Z * data) :=
  bind (cifar10_load_data e) (fun d =>
  let x_train := scale255 (x_train d) in
  let x_test := scale255 (x_test d) in
  bind (to_categorical (y_train d) num_classes) (fun y_train =>
  bind (to_categorical (y_test d) num_classes) (fun y_test =>
  inr (sample_shape d, ((x_train, x_test), (y_train, y_test)))))).

Definition create_model (input_shape : list Z) : run model :=
  let input := TF.Placeholder input_shape in
  let x :=
    [ Conv2D 64 (5, 5) PadSame (Some "relu");
      MaxPooling2D (3, 3) (Some (2, 2)) PadSame;
      Conv2D 64 (5, 5) PadSame (Some "relu");
      MaxPooling2D (3, 3) (Some (2, 2)) PadSame;
      Flatten;
      Dense 384 (Some "relu");
      Dense 192 (Some "relu");
      Dense num_classes (Some "softmax") ] in
  let model := Model [input] [(input, x)] in
  let opt := RMSprop 0.0001 1e-6 in
  invoke (Compile model "categorical_crossentropy" opt ["accuracy"] []) ;;
  ret model.

(** The [ImageDataGenerator(...)] of [train]: random shifts by a tenth of
    the width and height, random horizontal flips. *)
Definition augmenting_generator : image_data_generator :=
  ImageDataGenerator false false false false false 0 0.1 0.1 true false.

(** [train(model, data, batch_size, epochs)]; [data_augmentation] is the
    module-level global the function reads. *)
Definition train (data_augmentation : bool) (model : model) (d : data)
                 (batch_size epochs : Z) : run unit :=
  let '((x_train, x_test), (y_train, y_test)) := d in
  if negb data_augmentation then
    invoke (Fit model (FitArgs (Some x_train) (Some y_train) (Some batch_size) epochs
                               (Some (x_test, y_test)) true None None []))
  else
    let datagen := augmenting_generator in
    invoke (DatagenFit datagen x_train) ;;
    let gen := Flow datagen x_train y_train batch_size in
    steps_per_epoch <- lift (floordiv (Z.of_nat (length x_train)) batch_size) ;;
    invoke (FitGenerator model gen steps_per_epoch epochs (x_test, y_test)).

Definition parser : parser :=
  ArgumentParser ++
  [ Argument ["-a"; "--augment-data"] Store TypeBool (Default (VBool true))
             "Enable data augmentation";
    Argument ["-b"; "--batch-size"] Store TypeInt (Default (VInt 128))
             "Per-replica batch size";
    Argument ["-e"; "--epochs"] Store TypeInt (Default (VInt 10))
             "Number of epochs" ].

Record args := Args {
  augment_data : bool;
  batch_size : Z;
  epochs : Z
}.

Definition as_int (v : value) : result Z :=
  match v with VInt z => inr z | _ => inl TypeError end.

(** [parse_args()]: the namespace, read back through its three
    attributes. *)
Definition parse_args (argv : list string) : result args :=
  bind (Argparse.parse_args parser argv) (fun ns =>
  bind (getattr ns "augment_data") (fun a =>
  bind (bind (getattr ns "batch_size") as_int) (fun b =>
  bind (bind (getattr ns "epochs") as_int) (fun e =>
  inr (Args (truthy a) b e))))).

(** The [if __name__ == '__main__':] block. *)
Definition main (e : env) (argv : list string) : run unit :=
  args <- lift (parse_args argv) ;;
  let batch_size := batch_size args in
  let epochs := epochs args in
  let data_augmentation := augment_data args in
  sd <- lift (load_data e) ;;
  let '(shape, d) := sd in
  model <- create_model shape ;;
  train data_augmentation model d batch_size epochs.

End Alexnet.

(* ===================================================================== *)
(** ** [examples/alexnet_cifar10.py], over a framework that may raise *)
(* ===================================================================== *)

(** In [Alexnet] a call into Keras is logged and returns.  Here what a
    call does is the framework's: [keras log c] is the outcome of the
    call [c] made after the calls of [log], [inr tt] when it returns and
    [inl ex] when it raises [ex].  The functions are those of the script
    again, with the framework as a parameter; [Alexnet] is the case of a
    framework whose calls all return. *)
Module AlexnetRaising.
Import Py Argparse Keras.
Local Open Scope py_scope.

Definition framework : Type := list call -> call -> result unit.

(** The framework whose calls all return. *)
Definition returning : framework := fun _ _ => inr tt.

Definition run : Type -> Type := M (list call).

Definition invoke (keras : framework) (c : call) : run unit :=
  fun log => (log ++ [c], keras log c).

Definition create_model (keras : framework) (input_shape : list Z) : run model :=
  let input := TF.Placeholder input_shape in
  let x :=
    [ Conv2D 64 (5, 5) PadSame (Some "relu");
      MaxPooling2D (3, 3) (Some (2, 2)) PadSame;
      Conv2D 64 (5, 5) PadSame (Some "relu");
      MaxPooling2D (3, 3) (Some (2, 2)) PadSame;
      Flatten;
      Dense 384 (Some "relu");
      Dense 192 (Some "relu");
      Dense Alexnet.num_classes (Some "softmax") ] in
  let model := Model [input] [(input, x)] in
  let opt := RMSprop 0.0001 1e-6 in
  invoke keras (Compile model "categorical_crossentropy" opt ["accuracy"] []) ;;
  ret model.

(** [train(model, data, batch_size, epochs)]; [data_augmentation] is the
    module-level global the function reads. *)
Definition train (keras : framework) (data_augmentation : bool) (model : model)
                 (d : Alexnet.data) (batch_size epochs : Z) : run unit :=
  let '((x_train, x_test), (y_train, y_test)) := d in
  if negb data_augmentation then
    invoke keras (Fit model (FitArgs (Some x_train) (Some y_train) (Some batch_size) epochs
                                     (Some (x_test, y_test)) true None None []))
  else
    let datagen := ImageDataGenerator false false false false false 0 0.1 0.1 true false in
    invoke keras (DatagenFit datagen x_train) ;;
    let gen := Flow datagen x_train y_train batch_size in
    steps_per_epoch <- lift (floordiv (Z.of_nat (length x_train)) batch_size) ;;
    invoke keras (FitGenerator model gen steps_per_epoch epochs (x_test, y_test)).

(** The [if __name__ == '__main__':] block. *)
Definition main (keras : framework) (e : Alexnet.env) (argv : list string) : run unit :=
  args <- lift (Alexnet.parse_args argv) ;;
  let batch_size := Alexnet.batch_size args in
  let epochs := Alexnet.epochs args in
  let data_augmentation := Alexnet.augment_data args in
  sd <- lift (Alexnet.load_data e) ;;
  let '(shape, d) := sd in
  model <- create_model keras shape ;;
  train keras data_augmentation model d batch_size epochs.

End AlexnetRaising.

(* ===================================================================== *)
(** ** [examples/bzamecnik/staging_area_feed_dict/keras_staging_area_resnet50.py] *)
(* ===================================================================== *)

Module Resnet50.
Import Argparse.

(** The module-level configuration: plain assignments. *)
Definition num_classes : Z := 1000.
Definition dataset_size : Z := 1024.
Definition batch_size : Z := 32.
Definition epochs : Z := 5.

(** The script builds no argument parser and never reads [sys.argv]. *)
Definition parser : option parser := None.

End Resnet50.

(* ===================================================================== *)
(** ** [examples/avolkov1/cifar/cifar10_cnn_mgpu_tfqueue.py] *)
(* ===================================================================== *)

Module Tfqueue.
Import Py Argparse Keras.
Local Open Scope py_scope.

Definition _DEVPROF : bool := false.

Definition checkptfile : string := "cifar10_cnn_tfrecord.weights.hdf5".

(** What the script takes from outside.  [parser_def_mgpu] and
    [remove_options] are imported from the module [parser_common]; the
    script is embedded over any such pair. *)
Record env := Env {
  parser_def_mgpu : parser;
  remove_options : parser -> list string -> parser;
  get_available_gpus : value -> list string;
  cifar10_load_default : result dataset;                     (* cifar10.load_data() *)
  load_batch : string -> result (list image * list Z);       (* cifar10.load_batch(fpath) *)
  image_data_format : string;                                (* KB.image_data_format() *)
  best_epoch : Z     (* the epoch whose weights ModelCheckpoint keeps as best *)
}.

(** The state a run goes through. *)
Record world := World {
  files : gmap string weights;             (* weight files on disk, by path as written *)
  queue_runners : list TF.queue_runner;    (* the graph's QUEUE_RUNNERS *)
  threads : list TF.thread;                (* every thread started so far *)
  coordinators : nat;                      (* tf.train.Coordinator() made so far *)
  stop_requested : list nat;               (* coordinators asked to stop *)
  joined : list TF.thread;                 (* threads waited for by a join *)
  log : list call
}.

Definition run : Type -> Type := M world.

(** A fresh process over the files [fs]. *)
Definition boot (fs : gmap string weights) : world := World fs [] [] 0 [] [] [].

Definition invoke (c : call) : run unit :=
  fun w => (World (files w) (queue_runners w) (threads w) (coordinators w)
                  (stop_requested w) (joined w) (log w ++ [c]), inr tt).

Definition add_queue_runner (qr : TF.queue_runner) : run unit :=
  fun w => (World (files w) (queue_runners w ++ [qr]) (threads w) (coordinators w)
                  (stop_requested w) (joined w) (log w), inr tt).

Definition write_file (path : string) (content : weights) : run unit :=
  fun w => (World (<[path := content]> (files w)) (queue_runners w) (threads w)
                  (coordinators w) (stop_requested w) (joined w) (log w), inr tt).

Definition read_file (path : string) : run (option weights) :=
  fun w => (w, inr (files w !! path)).

(** *** The framework entry points the script calls *)

(** [tf.train.slice_input_producer([a, b], shuffle=...)]: a queue fed by
    one enqueue operation. *)
Definition slice_input_producer (queue : string) (a b : TF.tensor) (shuffle : bool)
  : run (TF.tensor * TF.tensor) :=
  add_queue_runner (TF.QueueRunner queue 1 false) ;;
  ret (TF.Sliced a shuffle, TF.Sliced b shuffle).

(** [tf.train.batch([a, b], batch_size, capacity, num_threads, name)]: a
    queue fed by [num_threads] enqueue operations. *)
Definition train_batch (queue : string) (a b : TF.tensor)
                       (batch_size capacity num_threads : Z)
  : run (TF.tensor * TF.tensor) :=
  invoke (TrainBatch queue batch_size capacity num_threads) ;;
  add_queue_runner (TF.QueueRunner queue (Z.to_nat num_threads) false) ;;
  ret (TF.Batched queue a, TF.Batched queue b).

(** [tf.train.start_queue_runners(sess, coord)]: creates and starts the
    threads of every runner of the collection, and returns them. *)
Definition start_queue_runners (coord : option nat) : run (list TF.thread) :=
  invoke (StartQueueRunners coord) ;;
  fun w =>
    let created := TF.started_by coord (queue_runners w) in
    (World (files w) (map TF.mark_started (queue_runners w)) (threads w ++ created)
           (coordinators w) (stop_requested w) (joined w) (log w), inr created).

(** [tf.train.Coordinator()]. *)
Definition Coordinator : run nat :=
  fun w => (World (files w) (queue_runners w) (threads w) (S (coordinators w))
                  (stop_requested w) (joined w) (log w), inr (coordinators w)).

Definition request_stop (coord : nat) : run unit :=
  invoke (RequestStop coord) ;;
  fun w => (World (files w) (queue_runners w) (threads w) (coordinators w)
                  (stop_requested w ++ [coord]) (joined w) (log w), inr tt).

Definition join (coord : nat) (ths : list TF.thread) : run unit :=
  invoke (Join coord ths) ;;
  fun w => (World (files w) (queue_runners w) (threads w) (coordinators w)
                  (stop_requested w) (joined w ++ ths) (log w), inr tt).

(** [KB.clear_session()]: a new default graph, with no queue runner. *)
Definition clear_session : run unit :=
  invoke ClearSession ;;
  fun w => (World (files w) [] (threads w) (coordinators w)
                  (stop_requested w) (joined w) (log w), inr tt).

(** A model object: its architecture and its current weights. *)
Record net := Net {
  arch : model;
  wts : weights
}.

(** [model.load_weights(path)]: the weights of the file; no file, no load. *)
Definition load_weights (m : net) (path : string) : run net :=
  invoke (LoadWeights (arch m) path) ;;
  content <- read_file path ;;
  match content with
  | Some w => ret (Net (arch m) w)
  | None => raise (IOError path)
  end.

(** [model.save_weights(path)]. *)
Definition save_weights (m : net) (path : string) : run unit :=
  invoke (SaveWeights (arch m) path) ;;
  write_file path (wts m).

(** What the callbacks of a [fit] write: a [ModelCheckpoint] with
    [save_best_only] writes its file at the end of each epoch that
    improves the monitored quantity, the first one included. *)
Fixpoint run_checkpoints (cbs : list callback) (best : weights) : run unit :=
  match cbs with
  | [] => ret tt
  | cb :: rest =>
      match checkpoint_path cb with
      | Some p => write_file p best ;; run_checkpoints rest best
      | None => run_checkpoints rest best
      end
  end.

(** [model.fit(validation_steps, steps_per_epoch, epochs, callbacks)] on
    a model fed by input tensors: trains for [epochs] epochs of
    [steps_per_epoch] batches, the callbacks observing each epoch. *)
Definition fit (e : env) (m : net) (validation_steps : bool)
               (steps_per_epoch epochs : Z) (callbacks : list callback) : run net :=
  invoke (Fit (arch m) (FitArgs None None None epochs None true
                                (Some validation_steps) (Some steps_per_epoch)
                                callbacks)) ;;
  if (1 <=? epochs) && (1 <=? steps_per_epoch) then
    run_checkpoints callbacks (Trained (wts m) (best_epoch e)) ;;
    ret (Net (arch m) (Trained (wts m) epochs))
  else ret m.

(** *** The script *)

Definition own_arguments : list argument :=
  [ Argument ["--checkpt"] (StoreOptional (VStr checkptfile)) TypeStr SUPPRESS
      "S|Save (overwrites) and load the model weights if available.
Optionally specify a file/filepath if the default name is undesired.
(default: cifar10_cnn_tfrecord.weights.hdf5)";
    Argument ["--aug"] StoreTrue TypeStr (Default (VBool false))
      "S|Perform data augmentation on cifar10 set.
";
    Argument ["--logdevp"] StoreTrue TypeStr (Default (VBool false))
      "S|Log device placement in Tensorflow.
";
    Argument ["--datadir"] Store TypeStr SUPPRESS
      "Data directory with Cifar10 dataset." ].

(** The parser [parser_] builds. *)
Definition make_parser (e : env) : result parser :=
  let parser := parser_def_mgpu e in
  let parser := remove_options e parser ["--nccl"; "--enqueue"; "--syncopt"; "--rdma"] in
  foldl (fun p a => bind p (fun p => add_argument p a)) (inr parser) own_arguments.

Definition parser_ (e : env) (argv : list string) : result namespace :=
  bind (make_parser e) (fun parser => parse_args parser argv).

Definition as_int (v : value) : result Z :=
  match v with VInt z => inr z | _ => inl TypeError end.

Definition as_optional_str (v : value) : result (option string) :=
  match v with
  | VNone => inr None
  | VStr s => inr (Some s)
  | _ => inl TypeError
  end.

Definition make_model_layers (num_classes : Z) : list layer :=
  [ Conv2D 32 (3, 3) PadSame None;
    Activation "relu";
    Conv2D 32 (3, 3) PadValid None;
    Activation "relu";
    MaxPooling2D (2, 2) None PadValid;
    Dropout 0.25;
    Conv2D 64 (3, 3) PadSame None;
    Activation "relu";
    Conv2D 64 (3, 3) PadValid None;
    Activation "relu";
    MaxPooling2D (2, 2) None PadValid;
    Dropout 0.25;
    Flatten;
    Dense 512 None;
    Activation "relu";
    Dropout 0.5;
    Dense num_classes None;
    Activation "softmax" ].

(** [make_model(train_input, num_classes, weights_file=None)]. *)
Definition make_model (train_input : train_input) (num_classes : Z)
                      (weights_file : option string) : run net :=
  let model := Net (Sequential (Seq train_input (make_model_layers num_classes)))
                   Initialized in
  match weights_file with
  | None => ret model
  | Some path =>
      content <- read_file path ;;
      match content with
      | Some _ => load_weights model path
      | None => ret model
      end
  end.

Fixpoint load_train_batches (e : env) (path_ : string) (batches : list Z)
                            (x_train : list image) (y_train : list Z)
  : result (list image * list Z) :=
  match batches with
  | [] => inr (x_train, y_train)
  | i :: rest =>
      let fpath := path_join path_ ("data_batch_" +:+ pretty i) in
      bind (load_batch e fpath) (fun dl =>
      let '(data, labels) := dl in
      bind (assign_slice x_train ((i - 1) * 10000) (i * 10000) data) (fun x_train =>
      bind (assign_slice y_train ((i - 1) * 10000) (i * 10000)
                         (map (fun k => k mod 256) labels)) (fun y_train =>
      load_train_batches e path_ rest x_train y_train)))
  end.

(** [cifar10_load_data(path)]. *)
Definition cifar10_load_data (e : env) (path : string) : result dataset :=
  let dirname := "cifar-10-batches-py" in
  let path_ := path_join path dirname in
  let num_train_samples := Z.to_nat 50000 in
  let x_train := replicate num_train_samples Zero in
  let y_train := replicate num_train_samples 0 in
  bind (load_train_batches e path_ (seqZ 1 5) x_train y_train) (fun xy =>
  let '(x_train, y_train) := xy in
  let fpath := path_join path_ "test_batch" in
  bind (load_batch e fpath) (fun t =>
  let '(x_test, y_test) := t in
  if String.eqb (image_data_format e) "channels_last" then
    inr (Dataset [32; 32; 3] (map Transposed x_train) y_train
                 (map Transposed x_test) y_test)
  else
    inr (Dataset [3; 32; 32] x_train y_train x_test y_test))).

Record args := Args {
  mgpu : value;
  checkpt : option string;
  epochs : Z;
  aug : bool;
  logdevp : bool;
  datadir : option string
}.

(** The attributes [main] reads from the namespace, each at the type
    the script uses it at. *)
Definition read_args (ns : namespace) : result args :=
  let mgpu := if is_none (getattr_default ns "mgpu") then VInt 0
              else getattr_default ns "mgpu" in
  bind (as_optional_str (getattr_default ns "checkpt")) (fun checkpt =>
  bind (bind (getattr ns "epochs") as_int) (fun epochs =>
  bind (getattr ns "aug") (fun aug =>
  bind (getattr ns "logdevp") (fun logdevp =>
  bind (as_optional_str (getattr_default ns "datadir")) (fun datadir =>
  inr (Args mgpu checkpt epochs (truthy aug) (truthy logdevp) datadir)))))).

(** The values [main] settles before it builds the graph. *)
Record config := Config {
  cfg_checkpt : option string;
  gdev_list : list string;
  ngpus : Z;
  batch_size : Z;
  num_classes : Z;
  cfg_epochs : Z;
  data_augmentation : bool;
  cfg_logdevp : bool;
  train_samples : Z;
  test_samples : Z;
  steps_per_epoch : Z;
  cfg_shape : list Z;
  cfg_x_train : list image;
  cfg_y_train : list (list Z);
  cfg_x_test : list image;
  cfg_y_test : list (list Z)
}.

(** [main], the preprocessing of the arrays: pixels scaled to floats,
    class numbers turned into rows of [num_classes] columns. *)
Definition preprocess (num_classes : Z) (d : dataset)
  : result ((list image * list (list Z)) * (list image * list (list Z))) :=
  let x_train := scale255 (x_train d) in
  let x_test := scale255 (x_test d) in
  bind (to_categorical (y_train d) num_classes) (fun y_train =>
  bind (to_categorical (y_test d) num_classes) (fun y_test =>
  inr ((x_train, y_train), (x_test, y_test)))).

(** [checkpt_flag = False if checkpt is None else True] and
    [filepath = checkpt]. *)
Definition checkpt_flag (cfg : config) : bool :=
  match cfg_checkpt cfg with None => false | Some _ => true end.

Definition filepath (cfg : config) : option string := cfg_checkpt cfg.

(** [main], from the parsed arguments to the preprocessed arrays. *)
Definition configure (e : env) (argv : list string) : result config :=
  bind (bind (parser_ e argv) read_args) (fun args =>
  let mgpu := mgpu args in
  let checkpt := checkpt args in
  let gdev_list := get_available_gpus e (if truthy mgpu then mgpu else VInt 1) in
  let ngpus := Z.of_nat (length gdev_list) in
  let batch_size_1gpu := 512 in
  let batch_size := batch_size_1gpu * ngpus in
  let num_classes := 10 in
  let epochs := epochs args in
  let data_augmentation := aug args in
  let logdevp := logdevp args in
  let datadir := datadir args in
  bind (match datadir with
        | Some path => cifar10_load_data e path
        | None => cifar10_load_default e
        end) (fun d =>
  let train_samples := Z.of_nat (length (x_train d)) in
  let test_samples := Z.of_nat (length (y_test d)) in
  bind (floordiv train_samples batch_size) (fun steps_per_epoch =>
  bind (preprocess num_classes d) (fun xy =>
  let '((x_train, y_train), (x_test, y_test)) := xy in
  inr (Config checkpt gdev_list ngpus batch_size num_classes
              epochs data_augmentation logdevp train_samples test_samples
              steps_per_epoch (sample_shape d) x_train y_train x_test y_test))))).

Record pipeline := Pipeline {
  x_train_batch : TF.tensor;
  y_train_batch : TF.tensor;
  x_test_batch : TF.tensor;
  y_test_batch : TF.tensor
}.

(** [main], the block under [tf.device('/cpu:0')]. *)
Definition input_pipeline (cfg : config) : run pipeline :=
  let capacity := 10000 in
  let input_images := TF.Constant "x_train" in
  il <- slice_input_producer "input_producer" input_images (TF.Constant "y_train") true ;;
  let '(image, label) := il in
  let image := TF.Reshaped image in
  let test_images := TF.Constant "x_test" in
  tl <- slice_input_producer "input_producer_1" test_images (TF.Constant "y_test") false ;;
  let '(test_image, test_label) := tl in
  let test_image := TF.Reshaped test_image in
  let augmented :=
    if data_augmentation cfg then
      let distorted_image := TF.RandomFlipLeftRight image in
      let distorted_image := TF.RandomBrightness distorted_image 63 in
      let distorted_image := TF.RandomContrast distorted_image 0.2 1.8 in
      (TF.PerImageStandardization distorted_image,
       TF.PerImageStandardization test_image)
    else (image, test_image) in
  let image := fst augmented in
  let test_image := snd augmented in
  tb <- train_batch "batch" image label (batch_size cfg) capacity 8 ;;
  sb <- train_batch "test_batch" test_image test_label (batch_size cfg) capacity 8 ;;
  ret (Pipeline (fst tb) (snd tb) (fst sb) (snd sb)).

(** [0.0001 * ngpus], in double precision. *)
Definition learning_rate (ngpus : Z) : float :=
  (0.0001 * PrimFloat.of_uint63 (Uint63.of_Z ngpus))%float.

(** [main], from the callbacks to the weights saved after training. *)
Definition build_and_train (e : env) (cfg : config) (pl : pipeline)
  : run (optimizer * nat * list TF.thread) :=
  let x_train_input := TF.InputTensor (x_train_batch pl) in
  let gauge := SamplesPerSec (batch_size cfg) in
  let callbacks := [gauge] in
  (if _DEVPROF || cfg_logdevp cfg then invoke (SetSession true true) else ret tt) ;;
  model_init <- make_model (InTensor x_train_input) (num_classes cfg)
                           (if checkpt_flag cfg then filepath cfg else None) ;;
  let x_train_out := outputs_of (arch model_init) in
  let lr := learning_rate (ngpus cfg) in
  let model :=
    Net (if 1 <? ngpus cfg then Parallel (arch model_init) (gdev_list cfg)
         else Model [x_train_input] x_train_out)
        (wts model_init) in
  let opt := RMSprop lr 1e-6 in
  invoke (Compile (arch model) "categorical_crossentropy" opt ["accuracy"]
                  [y_train_batch pl]) ;;
  let callbacks :=
    if checkpt_flag cfg then [ModelCheckpoint (filepath cfg) "acc" 1 true]
    else callbacks in
  _ <- start_queue_runners None ;;
  coord <- Coordinator ;;
  threads <- start_queue_runners (Some coord) ;;
  let val_in_train := false in
  model <- fit e model val_in_train (steps_per_epoch cfg) (cfg_epochs cfg) callbacks ;;
  invoke (PrintResults gauge) ;;
  (if negb (checkpt_flag cfg) then save_weights model checkptfile else ret tt) ;;
  ret (opt, coord, threads).

(** [main], the second session: a fresh model evaluated on the test set. *)
Definition evaluate (cfg : config) (pl : pipeline) (opt : optimizer) : run unit :=
  let weights_file := checkptfile in
  test_model <- make_model (InShape (cfg_shape cfg)) (num_classes cfg) None ;;
  test_model <- load_weights test_model weights_file ;;
  invoke (Compile (arch test_model) "categorical_crossentropy" opt ["accuracy"] []) ;;
  if data_augmentation cfg then
    invoke (SessionRun (x_test_batch pl)) ;;
    invoke (SessionRun (y_test_batch pl)) ;;
    invoke (Evaluate (arch test_model) (wts test_model) true)
  else
    invoke (Evaluate (arch test_model) (wts test_model) false).

(** [main], from the input pipeline on. *)
Definition session (e : env) (cfg : config) : run unit :=
  pl <- input_pipeline cfg ;;
  trained <- build_and_train e cfg pl ;;
  let '(opt, coord, threads) := trained in
  request_stop coord ;;
  join coord threads ;;
  clear_session ;;
  evaluate cfg pl opt.

(** [main()], on the command line after the program name. *)
Definition main (e : env) (argv : list string) : run unit :=
  cfg <- lift (configure e argv) ;;
  session e cfg.

End Tfqueue.


(* ===================================================================== *)
(** ** Properties the scripts are checked against *)
(* ===================================================================== *)

Module Props.
Import Py Argparse Keras.

(** A row with one entry equal to 1 and every other entry 0. *)
Definition one_hot_row (num_classes : Z) (row : list Z) : Prop :=
  Z.of_nat (length row) = num_classes /\
  exists k : nat,
    row !! k = Some 1 /\
    forall j : nat, j <> k -> (j < length row)%nat -> row !! j = Some 0.

(** Labels for the images: as many rows as images, each row one-hot. *)
Definition labelled (num_classes : Z) (images : list image)
                    (labels : list (list Z)) : Prop :=
  length labels = length images /\ Forall (one_hot_row num_classes) labels.

(** What the CIFAR-10 loaders deliver: a class number in 0..9 for every
    image. *)
Definition class_number (k : Z) : Prop := 0 <= k < 10.

Definition cifar10_arrays (d : dataset) : Prop :=
  length (x_train d) = length (y_train d) /\
  length (x_test d) = length (y_test d) /\
  Forall class_number (y_train d) /\
  Forall class_number (y_test d).

(** The six files [cifar10_load_data] reads under the directory [path]:
    those of the CIFAR-10 distribution. *)
Definition cifar10_files (path : string) : list string :=
  map (path_join (path_join path "cifar-10-batches-py"))
      ["data_batch_1"; "data_batch_2"; "data_batch_3"; "data_batch_4"; "data_batch_5";
       "test_batch"].

(** What [cifar10.load_batch] delivers on the six files of a CIFAR-10
    distribution kept under [path]: 10000 images with their class
    numbers from each of them.  Nothing is asked of any other path. *)
Definition cifar10_batches (load_batch : string -> result (list image * list Z))
                           (path : string) : Prop :=
  forall fpath, fpath ∈ cifar10_files path ->
    exists data labels,
      load_batch fpath = inr (data, labels) /\
      length data = Z.to_nat 10000 /\
      length labels = Z.to_nat 10000 /\
      Forall class_number labels.

(** A generator augments when it transforms the images at random: by a
    rotation, a shift or a flip. *)
Definition augments (g : image_data_generator) : bool :=
  negb (rotation_range g =? 0)
  || PrimFloat.ltb 0 (width_shift_range g)
  || PrimFloat.ltb 0 (height_shift_range g)
  || horizontal_flip g
  || vertical_flip g.

(** The kinds of command-line flag the specification lists. *)
Inductive flag :=
| BatchSize
| EpochCount
| AugmentationToggle
| GpuCount
| CheckpointPath
| DataDirectory.

(** The namespace attributes that serve each kind of flag in the
    scripts. *)
Definition attributes (f : flag) : list string :=
  match f with
  | BatchSize => ["batch_size"]
  | EpochCount => ["epochs"]
  | AugmentationToggle => ["augment_data"; "aug"]
  | GpuCount => ["mgpu"]
  | CheckpointPath => ["checkpt"]
  | DataDirectory => ["datadir"]
  end.

(** The calls of a log that train a model, compile one against target
    tensors, set up a batching queue, evaluate weights, save or load a
    weights file, print the gauge, or join threads. *)
Definition fit_call (c : call) : option (model * fit_args) :=
  match c with Fit m kw => Some (m, kw) | _ => None end.

Definition training_compile (c : call) : option (model * optimizer * list TF.tensor) :=
  match c with
  | Compile m _ opt _ (t :: ts) => Some (m, opt, t :: ts)
  | _ => None
  end.

Definition batch_call (c : call) : option (string * Z * Z * Z) :=
  match c with TrainBatch q b cap n => Some (q, b, cap, n) | _ => None end.

Definition evaluated_weights (c : call) : option weights :=
  match c with Evaluate _ w _ => Some w | _ => None end.

Definition save_path (c : call) : option string :=
  match c with SaveWeights _ path => Some path | _ => None end.

Definition load_path (c : call) : option string :=
  match c with LoadWeights _ path => Some path | _ => None end.

Definition printed_gauge (c : call) : option callback :=
  match c with PrintResults gauge => Some gauge | _ => None end.

Definition join_call (c : call) : option (nat * list TF.thread) :=
  match c with Join coord ths => Some (coord, ths) | _ => None end.

Definition unregistered (t : TF.thread) : bool :=
  match TF.th_coord t with None => true | Some _ => false end.

(** A script accepts a flag when its parser declares an option stored
    under one of the flag's attributes; a script without a parser
    accepts none. *)
Definition accepts (p : option parser) (f : flag) : bool :=
  match p with
  | None => false
  | Some p => existsb (fun a => bool_decide (dest a ∈ attributes f)) p
  end.

End Props.

(* ===================================================================== *)
(** ** Sample runs *)
(* ===================================================================== *)

Module Sample.
Import Py Argparse Keras.

(** Small data sets in the CIFAR-10 format. *)
Definition tiny : dataset :=
  Dataset [32; 32; 3] [Raw [0]; Raw [1]; Raw [2]] [3; 9; 0] [Raw [3]; Raw [4]] [9; 0].

Definition small : dataset :=
  Dataset [32; 32; 3] (replicate 2000 (Raw [0])) (replicate 2000 3)
          [Raw [1]; Raw [2]] [9; 0].

Definition alexnet_env : Alexnet.env := Alexnet.Env (inr tiny).

(** A common parser in the manner of [parser_def_mgpu]. *)
Definition common_parser : parser :=
  ArgumentParser ++
  [ Argument ["--mgpu"] (StoreOptional (VInt (-1))) TypeInt SUPPRESS "";
    Argument ["--epochs"] Store TypeInt (Default (VInt 200)) "";
    Argument ["--nccl"] StoreTrue TypeStr (Default (VBool false)) "" ].

Definition drop_options (p : parser) (opts : list string) : parser :=
  List.filter (fun a => negb (existsb (declares a) opts)) p.

(** A machine with two GPUs: [get_available_gpus(n)] hands out [n] of
    them, all of them for a negative [n]. *)
Definition two_gpus (v : value) : list string :=
  match v with
  | VInt 1 => ["/gpu:0"]
  | _ => ["/gpu:0"; "/gpu:1"]
  end.

Definition batch_file (fpath : string) : result (list image * list Z) :=
  inr (replicate (Z.to_nat 10000) (Raw [0]), replicate (Z.to_nat 10000) 7).

(** The parser the queue script builds from [common_parser]. *)
Definition queue_parser : parser :=
  drop_options common_parser ["--nccl"; "--enqueue"; "--syncopt"; "--rdma"]
    ++ Tfqueue.own_arguments.

Definition queue_env : Tfqueue.env :=
  Tfqueue.Env common_parser drop_options two_gpus (inr small) batch_file
              "channels_last" 1.

End Sample.


(* ===================================================================== *)
(** ** Further notions: label read-back, files, training *)
(* ===================================================================== *)

Module More.
Import Py Argparse Keras.

(** The column of the first 1 of a row. *)
Fixpoint hot_column (row : list Z) : option Z :=
  match row with
  | [] => None
  | v :: rest => if v =? 1 then Some 0 else Z.succ <$> hot_column rest
  end.

(** The units of the [Dense] layer a stack of layers ends with, an
    [Activation] after it apart. *)
Definition output_units (layers : list layer) : option Z :=
  match rev layers with
  | Dense n _ :: _ => Some n
  | Activation _ :: Dense n _ :: _ => Some n
  | _ => None
  end.

(** A namespace of the AlexNet script with its three attributes at their
    types. *)
Definition alexnet_typed (ns : namespace) : Prop :=
  exists b z1 z2,
    ns !! "augment_data" = Some (VBool b) /\
    ns !! "batch_size" = Some (VInt z1) /\
    ns !! "epochs" = Some (VInt z2).

(** The file of a CIFAR-10 directory [cifar10_load_data] reads under a
    name. *)
Definition batch_path (path name : string) : string :=
  path_join (path_join path "cifar-10-batches-py") name.

(** The six files of the CIFAR-10 distribution. *)
Definition batch_names : list string :=
  ["data_batch_1"; "data_batch_2"; "data_batch_3"; "data_batch_4"; "data_batch_5";
   "test_batch"].

(** Whether [fit] runs at least one batch. *)
Definition trains (cfg : Tfqueue.config) : bool :=
  (1 <=? Tfqueue.cfg_epochs cfg) && (1 <=? Tfqueue.steps_per_epoch cfg).

(** A machine on which [get_available_gpus] finds no device. *)
Definition no_gpu_env : Tfqueue.env :=
  Tfqueue.Env Sample.common_parser Sample.drop_options (fun _ => []) (inr Sample.small)
              Sample.batch_file "channels_last" 1.

(** A configuration of the queue script: one GPU, three steps of 512
    images an epoch. *)
Definition sample_config (checkpt : option string) (epochs : Z) : Tfqueue.config :=
  Tfqueue.Config checkpt ["/gpu:0"] 1 512 10 epochs false false 2000 2 3 [32; 32; 3]
                 [] [] [] [].

(** A file name of the working directory: not empty, neither [.] nor
    [..], and without a directory separator.  Two such names that differ
    are two entries of that directory, whereas two paths in general
    ([x] and [./x]) may be two spellings of one file. *)
Fixpoint no_separator (s : string) : bool :=
  match s with
  | EmptyString => true
  | String c r =>
      negb (Ascii.eqb c "/") && negb (Ascii.eqb c "\") && no_separator r
  end.

Definition file_name (s : string) : bool :=
  no_separator s
  && negb (String.eqb s "") && negb (String.eqb s ".") && negb (String.eqb s "..").


(** A machine whose disk holds a CIFAR-10 distribution under [/data] and
    nothing else: [load_batch] on any other path is an [IOError], and so
    is [cifar10.load_data()]. *)
Definition data_dir_batch_file (fpath : string) : result (list image * list Z) :=
  if bool_decide (fpath ∈ Props.cifar10_files "/data") then Sample.batch_file fpath
  else inl (IOError fpath).

Definition data_dir_env : Tfqueue.env :=
  Tfqueue.Env Sample.common_parser Sample.drop_options Sample.two_gpus
              (inl (IOError "cifar-10-batches-py.tar.gz")) data_dir_batch_file
              "channels_last" 1.

End More.

Import Py Argparse Keras Props.

(* ===================================================================== *)
(** ** The AlexNet script *)
(* ===================================================================== *)

Lemma bool_of_str_nonempty (s : string) : s <> "" -> bool_of_str s = true.
Proof. destruct s; [congruence | reflexivity]. Qed.

Lemma floordiv_nonzero (a b : Z) : b <> 0 -> floordiv a b = inr (a / b).
Proof.
  intros Hb. unfold floordiv.
  destruct (Z.eqb_spec b 0); [contradiction | reflexivity].
Qed.

Lemma augment_data_tokens (s : string) (ns : namespace) :
  parse_tokens Alexnet.parser ["--augment-data"; s] ns
  = if is_value_token s then inr (<["augment_data" := VBool (bool_of_str s)]> ns)
    else inl (SystemExit 2).
Proof. reflexivity. Qed.

(** C3.  [--augment-data] is declared with [type=bool], and [bool] of any
    non-empty string is true: the command line [--augment-data False]
    leaves augmentation on, and training runs [datagen.fit] and
    [fit_generator], never the plain [fit]; whatever the value given,
    augmentation is off for the empty string only. *)
Theorem C3_augment_data_False_still_augments :
  Alexnet.parse_args ["--augment-data"; "False"] = inr (Alexnet.Args true 128 10) /\
  snd (Alexnet.main Sample.alexnet_env ["--augment-data"; "False"] []) = inr tt /\
  map call_name (fst (Alexnet.main Sample.alexnet_env ["--augment-data"; "False"] []))
  = ["compile"; "datagen.fit"; "fit_generator"] /\
  (forall s,
     Alexnet.parse_args ["--augment-data"; s]
     = if is_value_token s then inr (Alexnet.Args (bool_of_str s) 128 10)
       else inl (SystemExit 2)).
Proof.
  split; [| split; [| split]]; try (vm_compute; reflexivity).
  intros s. unfold Alexnet.parse_args, Argparse.parse_args.
  rewrite augment_data_tokens. destruct (is_value_token s); reflexivity.
Qed.

(** The functions of [Alexnet] are those of [AlexnetRaising] over the
    framework whose calls all return. *)
Lemma alexnet_returning_framework :
  (forall shape log,
     AlexnetRaising.create_model AlexnetRaising.returning shape log
     = Alexnet.create_model shape log) /\
  (forall aug model d batch_size epochs log,
     AlexnetRaising.train AlexnetRaising.returning aug model d batch_size epochs log
     = Alexnet.train aug model d batch_size epochs log) /\
  (forall e argv log,
     AlexnetRaising.main AlexnetRaising.returning e argv log = Alexnet.main e argv log).
Proof.
  split; [reflexivity |]. split.
  - intros aug model [[xtr xte] [ytr yte]] b ep log. reflexivity.
  - intros e argv log. unfold AlexnetRaising.main, Alexnet.main, mbind, lift.
    destruct (Alexnet.parse_args argv) as [? | a]; [reflexivity |].
    destruct (Alexnet.load_data e) as [? | [shape [[xtr xte] [ytr yte]]]]; reflexivity.
Qed.

(** C6.  Whatever the framework: [train] without augmentation calls [fit]
    on the train arrays, shuffling, with the test arrays as validation
    data, and ends as that call ends.  With augmentation it calls
    [datagen.fit] for a generator of random shifts and horizontal flips;
    if that call returns and the batch size is not 0, it calls
    [fit_generator] on the generator's flow with
    [steps_per_epoch = len(x_train) // batch_size] and ends as that call
    ends.  On a batch size 0 it never calls [fit_generator]: the
    division raises [ZeroDivisionError] once [datagen.fit] has
    returned. *)
Theorem C6_train_fit_or_fit_generator
    (keras : AlexnetRaising.framework) (model : model)
    (x_train x_test : list image) (y_train y_test : list (list Z))
    (batch_size epochs : Z) (log : list call) :
  let d := ((x_train, x_test), (y_train, y_test)) in
  let datagen := ImageDataGenerator false false false false false 0 0.1 0.1 true false in
  let fit := Fit model (FitArgs (Some x_train) (Some y_train) (Some batch_size) epochs
                                (Some (x_test, y_test)) true None None []) in
  let fit_generator (batch_size : Z) :=
    FitGenerator model (Flow datagen x_train y_train batch_size)
                 (Z.of_nat (length x_train) / batch_size) epochs (x_test, y_test) in
  AlexnetRaising.train keras false model d batch_size epochs log
    = (log ++ [fit], keras log fit) /\
  augments datagen = true /\
  (batch_size <> 0 ->
   keras log (DatagenFit datagen x_train) = inr tt ->
   AlexnetRaising.train keras true model d batch_size epochs log
   = (log ++ [DatagenFit datagen x_train; fit_generator batch_size],
      keras (log ++ [DatagenFit datagen x_train]) (fit_generator batch_size))) /\
  AlexnetRaising.train keras true model d 0 epochs log
    = (log ++ [DatagenFit datagen x_train],
       match keras log (DatagenFit datagen x_train) with
       | inl ex => inl ex
       | inr _ => inl ZeroDivisionError
       end).
Proof.
  intros d datagen fit fit_generator.
  split; [reflexivity |]. split; [reflexivity |]. split.
  - intros Hb Hfit. subst d fit_generator datagen.
    unfold AlexnetRaising.train; cbn [negb].
    unfold mbind, lift, AlexnetRaising.invoke.
    rewrite Hfit, (floordiv_nonzero _ _ Hb), <- app_assoc. reflexivity.
  - subst d datagen. unfold AlexnetRaising.train; cbn [negb].
    unfold mbind, lift, AlexnetRaising.invoke.
    destruct (keras log _) as [ex | []]; reflexivity.
Qed.

Lemma C6_train_witness :
  let datagen := ImageDataGenerator false false false false false 0 0.1 0.1 true false in
  let x_train := [Raw [1]; Raw [2]; Raw [3]] in
  let model := Sequential (Seq (InShape [2]) []) in
  AlexnetRaising.train AlexnetRaising.returning true model
    ((x_train, []), ([[1]; [1]; [1]], [])) 2 1 []
  = ([ DatagenFit datagen x_train;
       FitGenerator model (Flow datagen x_train [[1]; [1]; [1]] 2) 1 1 ([], []) ],
     inr tt).
Proof.
  intros datagen x_train model.
  apply (proj1 (proj2 (proj2 (C6_train_fit_or_fit_generator
                  AlexnetRaising.returning model x_train [] [[1]; [1]; [1]] [] 2 1 [])))).
  - lia.
  - reflexivity.
Defined.

(** With augmentation and the batch size 0 the parser accepts, [train]
    does not call [fit_generator], even over a framework whose calls all
    return. *)
Lemma C6_batch_size_0_no_fit_generator :
  let datagen := ImageDataGenerator false false false false false 0 0.1 0.1 true false in
  AlexnetRaising.train AlexnetRaising.returning true (Sequential (Seq (InShape [2]) []))
    (([Raw [1]; Raw [2]; Raw [3]], []), ([[1]; [1]; [1]], [])) 0 1 []
  = ([DatagenFit datagen [Raw [1]; Raw [2]; Raw [3]]], inl ZeroDivisionError) /\
  Alexnet.parse_args ["-b"; "0"] = inr (Alexnet.Args true 0 10).
Proof. split; reflexivity. Qed.

(* ===================================================================== *)
(** ** Command-line flags *)
(* ===================================================================== *)

Lemma add_argument_inr (p q : parser) (a : argument) :
  add_argument p a = inr q -> q = p ++ [a].
Proof.
  unfold add_argument. destruct (List.find _ _); [discriminate |].
  intros [= <-]. reflexivity.
Qed.

Lemma add_arguments_inr (args : list argument) (r : result parser) (q : parser) :
  foldl (fun p a => bind p (fun p => add_argument p a)) r args = inr q ->
  exists p, r = inr p /\ q = p ++ args.
Proof.
  revert r. induction args as [| a args IH]; intros r; cbn [foldl].
  - intros ->. exists q. split; [reflexivity | by rewrite app_nil_r].
  - intros H. destruct (IH _ H) as (p' & Hp' & ->).
    destruct r as [e | p]; [discriminate |]. cbn [bind] in Hp'.
    apply add_argument_inr in Hp' as ->.
    exists p. split; [reflexivity | by rewrite <- app_assoc].
Qed.

(** The parser of the queue script ends with the four options the script
    declares itself. *)
Lemma make_parser_own (e : Tfqueue.env) (p : parser) :
  Tfqueue.make_parser e = inr p ->
  p = Tfqueue.remove_options e (Tfqueue.parser_def_mgpu e)
        ["--nccl"; "--enqueue"; "--syncopt"; "--rdma"] ++ Tfqueue.own_arguments.
Proof.
  unfold Tfqueue.make_parser. intros H.
  apply add_arguments_inr in H as (p' & [= <-] & ->). reflexivity.
Qed.

Lemma accepts_app_r (p q : parser) (f : flag) :
  accepts (Some q) f = true -> accepts (Some (p ++ q)) f = true.
Proof.
  unfold accepts. rewrite existsb_app. intros ->. apply orb_true_r.
Qed.

(** C4 (counterexample).  The ResNet50 script accepts no batch-size flag,
    and the AlexNet script no flag for the GPU count, the checkpoint path
    or the data directory. *)
Lemma C4_scripts_without_the_flags :
  accepts Resnet50.parser BatchSize = false /\
  accepts (Some Alexnet.parser) GpuCount = false /\
  accepts (Some Alexnet.parser) CheckpointPath = false /\
  accepts (Some Alexnet.parser) DataDirectory = false.
Proof. repeat split; vm_compute; reflexivity. Qed.

(** C4 (amended).  The AlexNet script accepts the augmentation toggle, the
    batch size and the epoch count, and no other of the listed flags; the
    ResNet50 script accepts none; the queue script, whenever its parser
    builds, accepts the checkpoint path, the augmentation toggle and the
    data directory through the options it declares itself. *)
Theorem C4_flags_of_each_script :
  (forall f, accepts (Some Alexnet.parser) f =
             match f with
             | AugmentationToggle | BatchSize | EpochCount => true
             | GpuCount | CheckpointPath | DataDirectory => false
             end) /\
  (forall f, accepts Resnet50.parser f = false) /\
  (forall e p, Tfqueue.make_parser e = inr p ->
     accepts (Some p) CheckpointPath = true /\
     accepts (Some p) AugmentationToggle = true /\
     accepts (Some p) DataDirectory = true).
Proof.
  split; [| split].
  - intros []; vm_compute; reflexivity.
  - intros f. reflexivity.
  - intros e p Hp. rewrite (make_parser_own e p Hp).
    repeat split; apply accepts_app_r; vm_compute; reflexivity.
Qed.

Lemma C4_flags_witness :
  accepts (Some Sample.queue_parser) CheckpointPath = true /\
  accepts (Some Sample.queue_parser) AugmentationToggle = true /\
  accepts (Some Sample.queue_parser) DataDirectory = true.
Proof.
  apply (proj2 (proj2 C4_flags_of_each_script) Sample.queue_env).
  vm_compute. reflexivity.
Defined.

(* ===================================================================== *)
(** ** The queue script: [make_model] *)
(* ===================================================================== *)

(** C10.  [make_model] loads weights exactly when a path is given and a
    file is there; a path without a file gives the freshly initialized
    model and no exception; the layers are the same in every case. *)
Theorem C10_make_model_loads_existing_file_only
    (train_input : train_input) (num_classes : Z) (weights_file : option string)
    (w : Tfqueue.world) :
  let model := Sequential (Seq train_input (Tfqueue.make_model_layers num_classes)) in
  (forall path content,
     weights_file = Some path -> Tfqueue.files w !! path = Some content ->
     Tfqueue.make_model train_input num_classes weights_file w
     = (fst (Tfqueue.invoke (LoadWeights model path) w), inr (Tfqueue.Net model content))) /\
  (forall path,
     weights_file = Some path -> Tfqueue.files w !! path = None ->
     Tfqueue.make_model train_input num_classes weights_file w
     = (w, inr (Tfqueue.Net model Initialized))) /\
  (weights_file = None ->
     Tfqueue.make_model train_input num_classes weights_file w
     = (w, inr (Tfqueue.Net model Initialized))) /\
  (exists m,
     snd (Tfqueue.make_model train_input num_classes weights_file w) = inr m /\
     layers_of (Tfqueue.arch m) = [Tfqueue.make_model_layers num_classes]).
Proof.
  cbv zeta. repeat split.
  - intros path content -> Hfile.
    unfold Tfqueue.make_model, Tfqueue.load_weights, Tfqueue.read_file, mbind.
    cbn. rewrite Hfile. cbn. rewrite Hfile. reflexivity.
  - intros path -> Hfile.
    unfold Tfqueue.make_model, Tfqueue.read_file, mbind. rewrite Hfile. reflexivity.
  - intros ->. reflexivity.
  - unfold Tfqueue.make_model, Tfqueue.load_weights, Tfqueue.read_file, mbind.
    destruct weights_file as [path |]; [| eexists; split; reflexivity].
    destruct (Tfqueue.files w !! path) eqn:Hfile; cbn; rewrite ?Hfile;
      eexists; split; reflexivity.
Qed.

Lemma C10_make_model_witness :
  Tfqueue.make_model (InShape [32; 32; 3]) 10 (Some "w.h5") (Tfqueue.boot {[ "w.h5" := Stored 1 ]})
  = (fst (Tfqueue.invoke
            (LoadWeights (Sequential (Seq (InShape [32; 32; 3]) (Tfqueue.make_model_layers 10)))
                         "w.h5")
            (Tfqueue.boot {[ "w.h5" := Stored 1 ]})),
     inr (Tfqueue.Net (Sequential (Seq (InShape [32; 32; 3]) (Tfqueue.make_model_layers 10)))
                      (Stored 1)))
  /\
  Tfqueue.make_model (InShape [32; 32; 3]) 10 (Some "w.h5") (Tfqueue.boot ∅)
  = (Tfqueue.boot ∅,
     inr (Tfqueue.Net (Sequential (Seq (InShape [32; 32; 3]) (Tfqueue.make_model_layers 10)))
                      Initialized)).
Proof.
  split.
  - apply (proj1 (C10_make_model_loads_existing_file_only
                    (InShape [32; 32; 3]) 10 (Some "w.h5")
                    (Tfqueue.boot {[ "w.h5" := Stored 1 ]})) "w.h5" (Stored 1));
      reflexivity.
  - apply (proj1 (proj2 (C10_make_model_loads_existing_file_only
                    (InShape [32; 32; 3]) 10 (Some "w.h5") (Tfqueue.boot ∅))) "w.h5");
      reflexivity.
Defined.

(* ===================================================================== *)
(** ** The queue script: what a session calls *)
(* ===================================================================== *)

Ltac run_session :=
  cbv beta iota zeta delta
    [Tfqueue.session Tfqueue.input_pipeline Tfqueue.build_and_train Tfqueue.evaluate
     Tfqueue.make_model Tfqueue.load_weights Tfqueue.save_weights Tfqueue.fit
     Tfqueue.run_checkpoints Tfqueue.slice_input_producer Tfqueue.train_batch
     Tfqueue.start_queue_runners Tfqueue.Coordinator Tfqueue.request_stop Tfqueue.join
     Tfqueue.clear_session Tfqueue.invoke Tfqueue.add_queue_runner Tfqueue.write_file
     Tfqueue.read_file mbind ret raise lift Tfqueue.boot fst snd
     Tfqueue.files Tfqueue.queue_runners Tfqueue.threads Tfqueue.coordinators
     Tfqueue.stop_requested Tfqueue.joined Tfqueue.log
     Tfqueue.checkpt_flag Tfqueue.filepath Tfqueue.gdev_list Tfqueue.ngpus
     Tfqueue.batch_size Tfqueue.num_classes Tfqueue.cfg_epochs Tfqueue.data_augmentation
     Tfqueue.cfg_logdevp Tfqueue.steps_per_epoch Tfqueue.cfg_shape Tfqueue.cfg_checkpt
     Tfqueue.x_train_batch Tfqueue.y_train_batch Tfqueue.x_test_batch Tfqueue.y_test_batch
     Tfqueue.arch Tfqueue.wts
     checkpoint_path orb negb Tfqueue._DEVPROF app].

Ltac split_lookup :=
  match goal with
  | |- context [match ?m !! ?k with _ => _ end] => destruct (m !! k) eqn:?
  end.

(** The calls of a session, whatever the configuration and the files:
    the two batching queues, the compile against the label batch, the one
    [fit], the weights files saved and loaded; and the threads it
    leaves. *)
Lemma session_training_calls (e : Tfqueue.env) (cfg : Tfqueue.config)
    (fs : gmap string weights) (w : Tfqueue.world) (r : result unit) :
  Tfqueue.session e cfg (Tfqueue.boot fs) = (w, r) ->
  let log := Tfqueue.log w in
  exists x_train_input target,
    let base := Sequential (Seq (InTensor x_train_input)
                                (Tfqueue.make_model_layers (Tfqueue.num_classes cfg))) in
    let model := if 1 <? Tfqueue.ngpus cfg then Parallel base (Tfqueue.gdev_list cfg)
                 else Model [x_train_input] (outputs_of base) in
    let callbacks := if Tfqueue.checkpt_flag cfg
                     then [ModelCheckpoint (Tfqueue.filepath cfg) "acc" 1 true]
                     else [SamplesPerSec (Tfqueue.batch_size cfg)] in
    omap batch_call log
      = [ ("batch", Tfqueue.batch_size cfg, 10000, 8);
          ("test_batch", Tfqueue.batch_size cfg, 10000, 8) ] /\
    omap training_compile log
      = [ (model, RMSprop (Tfqueue.learning_rate (Tfqueue.ngpus cfg)) 1e-6, [target]) ] /\
    omap fit_call log
      = [ (model, FitArgs None None None (Tfqueue.cfg_epochs cfg) None true (Some false)
                          (Some (Tfqueue.steps_per_epoch cfg)) callbacks) ] /\
    length (Tfqueue.threads w) = 18%nat /\
    forallb unregistered (Tfqueue.threads w) = true /\
    Tfqueue.joined w = [] /\
    omap join_call log = [(0%nat, [])] /\
    omap printed_gauge log = [SamplesPerSec (Tfqueue.batch_size cfg)] /\
    omap save_path log
      = (if Tfqueue.checkpt_flag cfg then [] else [Tfqueue.checkptfile]) /\
    last (omap load_path log) = Some Tfqueue.checkptfile.
Proof.
  destruct cfg as [fp gd ng bs nc ep da lg ts tes sp sh xt yt xte yte].
  destruct lg, da, fp as [p |]; run_session.
  all: try (destruct (fs !! p) eqn:E; run_session; rewrite ?E).
  all: destruct ((1 <=? ep) && (1 <=? sp)); run_session.
  all: split_lookup.
  all: intros [= <- <-]; cbv zeta; cbn [Tfqueue.log Tfqueue.threads Tfqueue.joined].
  all: eexists _, _.
  all: repeat (split; [reflexivity |]).
  all: reflexivity.
Qed.

Lemma main_session (e : Tfqueue.env) (argv : list string) (cfg : Tfqueue.config)
    (w : Tfqueue.world) :
  Tfqueue.configure e argv = inr cfg ->
  Tfqueue.main e argv w = Tfqueue.session e cfg w.
Proof. intros H. unfold Tfqueue.main, mbind, lift. rewrite H. reflexivity. Qed.

Ltac bind_inv H :=
  match type of H with
  | bind ?r _ = inr _ =>
      let E := fresh "E" in
      destruct r eqn:E; cbn [bind] in H; [discriminate H |]
  end.

(** What [configure] settles, read off a configuration it returned. *)
Lemma configure_inv (e : Tfqueue.env) (argv : list string) (cfg : Tfqueue.config) :
  Tfqueue.configure e argv = inr cfg ->
  Tfqueue.ngpus cfg = Z.of_nat (length (Tfqueue.gdev_list cfg)) /\
  Tfqueue.batch_size cfg = 512 * Tfqueue.ngpus cfg /\
  Tfqueue.num_classes cfg = 10 /\
  floordiv (Tfqueue.train_samples cfg) (Tfqueue.batch_size cfg)
    = inr (Tfqueue.steps_per_epoch cfg) /\
  Tfqueue.train_samples cfg = Z.of_nat (length (Tfqueue.cfg_x_train cfg)) /\
  exists d,
    (Tfqueue.cifar10_load_default e = inr d \/
     exists path, Tfqueue.cifar10_load_data e path = inr d) /\
    Tfqueue.preprocess 10 d
    = inr ((Tfqueue.cfg_x_train cfg, Tfqueue.cfg_y_train cfg),
           (Tfqueue.cfg_x_test cfg, Tfqueue.cfg_y_test cfg)).
Proof.
  unfold Tfqueue.configure. intros H.
  bind_inv H. bind_inv H. bind_inv H. bind_inv H.
  destruct p as [[xtr ytr] [xte yte]]. injection H as <-. cbn.
  repeat split; try assumption; try reflexivity.
  - unfold Tfqueue.preprocess in E2. bind_inv E2. bind_inv E2.
    injection E2 as <- <- <- <-. unfold scale255. by rewrite length_map.
  - exists d. split; [| assumption].
    destruct (Tfqueue.datadir a); eauto.
Qed.

(* ===================================================================== *)
(** ** The queue script: replication, batch size, learning rate *)
(* ===================================================================== *)

(** C5.  With more than one device the model compiled against the label
    batch and fitted is [make_parallel] of the base model over the device
    list; with exactly one device it is the functional [Model] over the
    input and output of the base model. *)
Theorem C5_parallel_model_iff_several_gpus
    (e : Tfqueue.env) (argv : list string) (cfg : Tfqueue.config)
    (fs : gmap string weights) :
  Tfqueue.configure e argv = inr cfg ->
  let log := Tfqueue.log (fst (Tfqueue.main e argv (Tfqueue.boot fs))) in
  exists x_train_input,
    let base := Sequential (Seq (InTensor x_train_input) (Tfqueue.make_model_layers 10)) in
    ((1 < length (Tfqueue.gdev_list cfg))%nat ->
       map (fun c => c.1.1) (omap training_compile log)
         = [Parallel base (Tfqueue.gdev_list cfg)] /\
       map fst (omap fit_call log) = [Parallel base (Tfqueue.gdev_list cfg)]) /\
    (length (Tfqueue.gdev_list cfg) = 1%nat ->
       map (fun c => c.1.1) (omap training_compile log)
         = [Model [x_train_input] (outputs_of base)] /\
       map fst (omap fit_call log) = [Model [x_train_input] (outputs_of base)]).
Proof.
  intros Hcfg log. subst log. rewrite (main_session _ _ _ _ Hcfg).
  destruct (Tfqueue.session e cfg (Tfqueue.boot fs)) as [w r] eqn:Hrun.
  destruct (session_training_calls _ _ _ _ _ Hrun)
    as (input & target & _ & Hcompile & Hfit & _).
  destruct (configure_inv _ _ _ Hcfg) as (Hn & _ & Hnc & _).
  cbn [fst]. rewrite Hcompile, Hfit, Hnc, Hn. exists input. cbn [map fst].
  split; intros Hlen.
  - destruct (Z.ltb_spec 1 (Z.of_nat (length (Tfqueue.gdev_list cfg)))); [done | lia].
  - rewrite Hlen. done.
Qed.

Lemma C5_parallel_model_witness :
  exists x_train_input,
    let log := Tfqueue.log (fst (Tfqueue.main Sample.queue_env ["--mgpu"] (Tfqueue.boot ∅))) in
    let base := Sequential (Seq (InTensor x_train_input) (Tfqueue.make_model_layers 10)) in
    map fst (omap fit_call log) = [Parallel base ["/gpu:0"; "/gpu:1"]].
Proof.
  assert (Hcfg : exists cfg, Tfqueue.configure Sample.queue_env ["--mgpu"] = inr cfg /\
                             Tfqueue.gdev_list cfg = ["/gpu:0"; "/gpu:1"]).
  { eexists. split; vm_compute; reflexivity. }
  destruct Hcfg as (cfg & Hcfg & Hdev).
  destruct (C5_parallel_model_iff_several_gpus Sample.queue_env ["--mgpu"] cfg ∅ Hcfg)
    as (input & Hmany & _).
  exists input. rewrite <- Hdev. apply Hmany. rewrite Hdev. cbn. lia.
Defined.

(** C9.  For a detected GPU count of at least one, both batching queues
    use the global batch size [512 * ngpus], the optimizer of the training
    compile has learning rate [0.0001 * ngpus], and [fit] runs
    [train_samples // batch_size] steps per epoch, which leaves at most
    [batch_size - 1] samples out of an epoch. *)
Theorem C9_batch_size_learning_rate_steps
    (e : Tfqueue.env) (argv : list string) (cfg : Tfqueue.config)
    (fs : gmap string weights) :
  Tfqueue.configure e argv = inr cfg ->
  1 <= Tfqueue.ngpus cfg ->
  let log := Tfqueue.log (fst (Tfqueue.main e argv (Tfqueue.boot fs))) in
  let ngpus := Tfqueue.ngpus cfg in
  let batch_size := 512 * ngpus in
  let train_samples := Z.of_nat (length (Tfqueue.cfg_x_train cfg)) in
  ngpus = Z.of_nat (length (Tfqueue.gdev_list cfg)) /\
  Tfqueue.batch_size cfg = batch_size /\
  map (fun b => b.1.1.2) (omap batch_call log) = [batch_size; batch_size] /\
  map (fun c => c.1.2) (omap training_compile log)
    = [RMSprop (0.0001 * PrimFloat.of_uint63 (Uint63.of_Z ngpus))%float 1e-6] /\
  map (fun f => fit_steps_per_epoch f.2) (omap fit_call log)
    = [Some (train_samples / batch_size)] /\
  Tfqueue.steps_per_epoch cfg = train_samples / batch_size /\
  0 <= train_samples - Tfqueue.steps_per_epoch cfg * batch_size <= batch_size - 1.
Proof.
  intros Hcfg Hn log. subst log. rewrite (main_session _ _ _ _ Hcfg).
  destruct (Tfqueue.session e cfg (Tfqueue.boot fs)) as [w r] eqn:Hrun.
  destruct (session_training_calls _ _ _ _ _ Hrun)
    as (input & target & Hbatch & Hcompile & Hfit & _).
  destruct (configure_inv _ _ _ Hcfg) as (Hlen & Hbs & _ & Hdiv & Hts & _).
  cbn [fst]. cbv zeta. rewrite Hbatch, Hcompile, Hfit, <- Hts, Hbs. cbn [map fst snd].
  rewrite Hbs in Hdiv. rewrite floordiv_nonzero in Hdiv by lia.
  injection Hdiv as Hdiv. rewrite <- Hdiv.
  repeat split; try done.
  - pose proof (Z.mul_div_le (Tfqueue.train_samples cfg) (512 * Tfqueue.ngpus cfg)). lia.
  - pose proof (Z.mod_pos_bound (Tfqueue.train_samples cfg) (512 * Tfqueue.ngpus cfg)).
    pose proof (Z.div_mod (Tfqueue.train_samples cfg) (512 * Tfqueue.ngpus cfg)). lia.
Qed.

Lemma C9_batch_size_witness :
  let log := Tfqueue.log (fst (Tfqueue.main Sample.queue_env ["--mgpu"] (Tfqueue.boot ∅))) in
  map (fun b => b.1.1.2) (omap batch_call log) = [1024; 1024] /\
  map (fun c => c.1.2) (omap training_compile log) = [RMSprop 0.0002 1e-6] /\
  map (fun f => fit_steps_per_epoch f.2) (omap fit_call log) = [Some 1].
Proof.
  assert (Hcfg : exists cfg, Tfqueue.configure Sample.queue_env ["--mgpu"] = inr cfg /\
                             Tfqueue.ngpus cfg = 2 /\
                             length (Tfqueue.cfg_x_train cfg) = 2000%nat).
  { eexists. repeat split; vm_compute; reflexivity. }
  destruct Hcfg as (cfg & Hcfg & Hn & Hlen).
  assert (Hpos : 1 <= Tfqueue.ngpus cfg) by (rewrite Hn; lia).
  destruct (C9_batch_size_learning_rate_steps Sample.queue_env ["--mgpu"] cfg ∅ Hcfg Hpos)
    as (_ & _ & Hb & Hc & Hf & _).
  rewrite Hn, ?Hlen in *. exact (conj Hb (conj Hc Hf)).
Defined.

(* ===================================================================== *)
(** ** The queue script: callbacks, checkpoint file, queue-runner threads *)
(* ===================================================================== *)

(** C2.  With [--checkpt] the callback list is rebound to the checkpoint
    alone: [fit] runs with [ModelCheckpoint] as its only callback, the
    throughput gauge is not among them, and [print_results] is still
    called on the gauge afterwards.  In every session the gauge is among
    the callbacks of [fit] exactly when there is no checkpoint flag. *)
Theorem C2_checkpt_drops_the_gauge :
  (let log := Tfqueue.log (fst (Tfqueue.main Sample.queue_env ["--checkpt"]
                                             (Tfqueue.boot ∅))) in
   map (fun f => fit_callbacks f.2) (omap fit_call log)
     = [[ModelCheckpoint (Some Tfqueue.checkptfile) "acc" 1 true]] /\
   map (fun f => existsb is_gauge (fit_callbacks f.2)) (omap fit_call log) = [false] /\
   omap printed_gauge log = [SamplesPerSec 512]) /\
  (forall e cfg fs,
     let log := Tfqueue.log (fst (Tfqueue.session e cfg (Tfqueue.boot fs))) in
     map (fun f => existsb is_gauge (fit_callbacks f.2)) (omap fit_call log)
       = [negb (Tfqueue.checkpt_flag cfg)] /\
     omap printed_gauge log = [SamplesPerSec (Tfqueue.batch_size cfg)]).
Proof.
  split; [cbv zeta; repeat split; vm_compute; reflexivity |].
  intros e cfg fs log. subst log.
  destruct (Tfqueue.session e cfg (Tfqueue.boot fs)) as [w r] eqn:Hrun.
  destruct (session_training_calls _ _ _ _ _ Hrun)
    as (input & target & _ & _ & Hfit & _ & _ & _ & _ & Hprint & _).
  cbn [fst]. rewrite Hfit, Hprint. split; [| reflexivity].
  by destruct (Tfqueue.checkpt_flag cfg).
Qed.

(** C1.  With [--checkpt my_weights.hdf5] training writes its weights to
    [my_weights.hdf5] and never calls [save_weights], while the evaluation
    model loads [cifar10_cnn_tfrecord.weights.hdf5]: on a disk without
    that file the load raises, and on a disk with an older such file the
    evaluation runs on the older weights.  In every session the file
    training writes is the checkpoint path when there is one and
    [checkptfile] otherwise, and the file the evaluation model loads is
    [checkptfile]. *)
Theorem C1_user_path_written_default_path_loaded :
  let run := Tfqueue.main Sample.queue_env ["--checkpt"; "my_weights.hdf5"] in
  Tfqueue.files (fst (run (Tfqueue.boot ∅))) !! "my_weights.hdf5"
    = Some (Trained Initialized 1) /\
  Tfqueue.files (fst (run (Tfqueue.boot ∅))) !! Tfqueue.checkptfile = None /\
  snd (run (Tfqueue.boot ∅)) = inl (IOError Tfqueue.checkptfile) /\
  let old := {[ Tfqueue.checkptfile := Stored 7 ]} in
  Tfqueue.files (fst (run (Tfqueue.boot old))) !! "my_weights.hdf5"
    = Some (Trained Initialized 1) /\
  Tfqueue.files (fst (run (Tfqueue.boot old))) !! Tfqueue.checkptfile = Some (Stored 7) /\
  snd (run (Tfqueue.boot old)) = inr tt /\
  omap evaluated_weights (Tfqueue.log (fst (run (Tfqueue.boot old)))) = [Stored 7] /\
  (forall e cfg fs,
     let log := Tfqueue.log (fst (Tfqueue.session e cfg (Tfqueue.boot fs))) in
     map (fun f => omap checkpoint_path (fit_callbacks f.2)) (omap fit_call log)
       = [match Tfqueue.cfg_checkpt cfg with Some path => [path] | None => [] end] /\
     omap save_path log
       = match Tfqueue.cfg_checkpt cfg with
         | Some _ => []
         | None => [Tfqueue.checkptfile]
         end /\
     last (omap load_path log) = Some Tfqueue.checkptfile).
Proof.
  cbv zeta. repeat (split; [vm_compute; reflexivity |]).
  intros e cfg fs.
  destruct (Tfqueue.session e cfg (Tfqueue.boot fs)) as [w r] eqn:Hrun.
  destruct (session_training_calls _ _ _ _ _ Hrun)
    as (input & target & _ & _ & Hfit & _ & _ & _ & _ & _ & Hsave & Hload).
  cbn [fst]. rewrite Hfit, Hsave, Hload.
  unfold Tfqueue.checkpt_flag, Tfqueue.filepath.
  by destruct (Tfqueue.cfg_checkpt cfg).
Qed.

(** C8.  The first [start_queue_runners] call is made without a
    coordinator and starts every queue-runner thread; the second call,
    with the coordinator, finds the runners started and returns no thread.
    In every session the eighteen threads started are registered with no
    coordinator, and [coord.join] is called on an empty list. *)
Theorem C8_threads_started_without_coordinator
    (e : Tfqueue.env) (cfg : Tfqueue.config) (fs : gmap string weights) :
  let w := fst (Tfqueue.session e cfg (Tfqueue.boot fs)) in
  length (Tfqueue.threads w) = 18%nat /\
  forallb unregistered (Tfqueue.threads w) = true /\
  Tfqueue.joined w = [] /\
  omap join_call (Tfqueue.log w) = [(0%nat, [])] /\
  map call_name
      (Tfqueue.log (fst (Tfqueue.main Sample.queue_env [] (Tfqueue.boot ∅))))
  = [ "tf.train.batch"; "tf.train.batch"; "compile";
      "tf.train.start_queue_runners"; "tf.train.start_queue_runners";
      "fit"; "print_results"; "save_weights"; "request_stop"; "join";
      "clear_session"; "load_weights"; "compile"; "evaluate" ].
Proof.
  intros w. subst w.
  destruct (Tfqueue.session e cfg (Tfqueue.boot fs)) as [w r] eqn:Hrun.
  destruct (session_training_calls _ _ _ _ _ Hrun)
    as (_ & _ & _ & _ & _ & Hthreads & Hcoord & Hjoined & Hjoin & _).
  cbn [fst].
  split; [assumption |]. split; [assumption |]. split; [assumption |].
  split; [assumption |]. vm_compute. reflexivity.
Qed.

(* ===================================================================== *)
(** ** One-hot labels *)
(* ===================================================================== *)

Lemma one_hot_is_one_hot_row (n c : Z) :
  0 <= c < n -> one_hot_row n (one_hot n c).
Proof.
  intros Hc. unfold one_hot_row, one_hot.
  change (map ?f ?l) with (f <$> l).
  rewrite length_fmap, length_seqZ. split; [lia |].
  exists (Z.to_nat c). split.
  - rewrite list_lookup_fmap, lookup_seqZ_lt by lia. cbn.
    destruct (Z.eqb_spec (0 + Z.of_nat (Z.to_nat c)) c); [reflexivity | lia].
  - intros j Hj Hlt. rewrite list_lookup_fmap, lookup_seqZ_lt by lia. cbn.
    destruct (Z.eqb_spec (0 + Z.of_nat j) c); [lia | reflexivity].
Qed.

Lemma categorical_rows_classes (y : list Z) :
  Forall class_number y ->
  exists rows,
    categorical_rows 10 y = inr rows /\
    length rows = length y /\
    Forall (one_hot_row 10) rows.
Proof.
  induction 1 as [| k ys Hk _ (rows & Hrows & Hlen & Hhot)].
  - exists []. repeat split; constructor.
  - exists (one_hot 10 k :: rows). unfold class_number in Hk.
    cbn [categorical_rows]. unfold column.
    destruct (Z.leb_spec 0 k); [| lia]. destruct (Z.ltb_spec k 10); [| lia].
    cbn [andb bind]. rewrite Hrows. cbn [bind].
    repeat split.
    + cbn [length]. by rewrite Hlen.
    + constructor; [by apply one_hot_is_one_hot_row | assumption].
Qed.

Lemma column_range (n k c : Z) : column n k = inr c -> 0 <= c < n.
Proof.
  unfold column.
  destruct (Z.leb_spec 0 k), (Z.ltb_spec k n); cbn [andb].
  all: try (intros [= <-]; lia).
  all: destruct (Z.leb_spec (- n) k), (Z.ltb_spec k 0); cbn [andb].
  all: try (intros [= <-]; lia); discriminate.
Qed.

(** Whatever the class numbers, the rows [to_categorical] returns are
    one-hot, one per class number. *)
Lemma to_categorical_rows (y : list Z) (rows : list (list Z)) :
  to_categorical y 10 = inr rows ->
  length rows = length y /\ Forall (one_hot_row 10) rows.
Proof.
  unfold to_categorical. cbn [Z.eqb bind Z.ltb Z.compare].
  revert rows. induction y as [| k ys IH]; intros rows; cbn [categorical_rows].
  - intros [= <-]. split; [reflexivity | constructor].
  - destruct (column 10 k) as [? | c] eqn:Hc; cbn [bind]; [discriminate |].
    destruct (categorical_rows 10 ys) as [? | rs]; cbn [bind]; [discriminate |].
    intros [= <-]. destruct (IH rs eq_refl) as [Hlen Hhot].
    split; [cbn [length]; congruence |].
    constructor; [| assumption].
    apply one_hot_is_one_hot_row. by apply column_range with k.
Qed.

(** Labels of a CIFAR-10 array turn into rows that label its images. *)
Lemma to_categorical_labels (x : list image) (y : list Z) :
  length x = length y -> Forall class_number y ->
  exists rows, to_categorical y 10 = inr rows /\ labelled 10 (scale255 x) rows.
Proof.
  intros Hlen Hy. destruct (categorical_rows_classes y Hy) as (rows & Hrows & Hl & Hhot).
  exists rows. split; [exact Hrows |].
  split; [| assumption]. unfold scale255. rewrite length_map. congruence.
Qed.

Lemma preprocess_labels (d : dataset) :
  cifar10_arrays d ->
  exists y_train y_test,
    Tfqueue.preprocess 10 d
      = inr ((scale255 (x_train d), y_train), (scale255 (x_test d), y_test)) /\
    labelled 10 (scale255 (x_train d)) y_train /\
    labelled 10 (scale255 (x_test d)) y_test.
Proof.
  intros (Htr & Hte & Hytr & Hyte).
  destruct (to_categorical_labels _ _ Htr Hytr) as (ytr & Etr & Ltr).
  destruct (to_categorical_labels _ _ Hte Hyte) as (yte & Ete & Lte).
  exists ytr, yte. unfold Tfqueue.preprocess. rewrite Etr, Ete. auto.
Qed.

Lemma assign_slice_fits {A} (arr : list A) (lo hi : Z) (data : list A) :
  0 <= lo <= hi -> hi <= Z.of_nat (length arr) ->
  Z.of_nat (length data) = hi - lo ->
  exists arr',
    assign_slice arr lo hi data = inr arr' /\
    length arr' = length arr /\
    forall P : A -> Prop, Forall P arr -> Forall P data -> Forall P arr'.
Proof.
  intros Hlo Hhi Hdata. unfold assign_slice.
  replace (Z.min (Z.max lo 0) (Z.of_nat (length arr))) with lo by lia.
  replace (Z.min (Z.max hi 0) (Z.of_nat (length arr))) with hi by lia.
  replace (Z.max (hi - lo) 0) with (hi - lo) by lia.
  rewrite Hdata, Z.eqb_refl. eexists. split; [reflexivity |]. split.
  - rewrite !length_app, length_take, length_drop. lia.
  - intros P Harr Hd. rewrite !Forall_app.
    auto using Forall_take, Forall_drop.
Qed.

Lemma class_numbers_as_uint8 (labels : list Z) :
  Forall class_number labels ->
  Forall class_number (map (fun k => k mod 256) labels).
Proof.
  induction 1 as [| k ks Hk _ IH]; constructor; [| assumption].
  unfold class_number in *. rewrite Z.mod_small; lia.
Qed.

Lemma cifar10_files_train (path : string) (i : Z) :
  1 <= i <= 5 ->
  path_join (path_join path "cifar-10-batches-py") ("data_batch_" +:+ pretty i)
  ∈ cifar10_files path.
Proof.
  intros Hi. unfold cifar10_files.
  assert (H : i = 1 \/ i = 2 \/ i = 3 \/ i = 4 \/ i = 5) by lia.
  destruct H as [-> | [-> | [-> | [-> | ->]]]]; cbn [map];
    rewrite !elem_of_cons; auto 10.
Qed.

Lemma cifar10_files_test (path : string) :
  path_join (path_join path "cifar-10-batches-py") "test_batch" ∈ cifar10_files path.
Proof. unfold cifar10_files. cbn [map]. rewrite !elem_of_cons. auto 10. Qed.

Lemma load_train_batches_arrays (e : Tfqueue.env) (path : string) (batches : list Z)
    (x : list image) (y : list Z) :
  cifar10_batches (Tfqueue.load_batch e) path ->
  Forall (fun i => 1 <= i <= 5) batches ->
  length x = Z.to_nat 50000 -> length y = Z.to_nat 50000 -> Forall class_number y ->
  exists x' y',
    Tfqueue.load_train_batches e (path_join path "cifar-10-batches-py") batches x y
      = inr (x', y') /\
    length x' = Z.to_nat 50000 /\ length y' = Z.to_nat 50000 /\
    Forall class_number y'.
Proof.
  intros Hload Hb. revert x y.
  induction Hb as [| i rest Hi _ IH]; intros x y Hx Hy Hcls.
  - exists x, y. auto.
  - cbn [Tfqueue.load_train_batches].
    destruct (Hload _ (cifar10_files_train path i Hi))
      as (data & labels & -> & Hd & Hl & Hlc).
    cbn [bind].
    destruct (assign_slice_fits x ((i - 1) * 10000) (i * 10000) data)
      as (x1 & -> & Hx1 & _); [lia | lia | lia |].
    cbn [bind].
    destruct (assign_slice_fits y ((i - 1) * 10000) (i * 10000)
                (map (fun k => k mod 256) labels))
      as (y1 & -> & Hy1 & Hcls1); [lia | lia | rewrite length_map; lia |].
    cbn [bind].
    apply IH; [congruence | congruence |].
    apply Hcls1; [assumption | by apply class_numbers_as_uint8].
Qed.

(** [cifar10_load_data] on the files of a CIFAR-10 distribution. *)
Lemma cifar10_load_data_arrays (e : Tfqueue.env) (path : string) :
  cifar10_batches (Tfqueue.load_batch e) path ->
  exists d, Tfqueue.cifar10_load_data e path = inr d /\ cifar10_arrays d.
Proof.
  intros Hload. unfold Tfqueue.cifar10_load_data.
  destruct (load_train_batches_arrays e path
              (seqZ 1 5) (replicate (Z.to_nat 50000) Zero) (replicate (Z.to_nat 50000) 0))
    as (x & y & -> & Hx & Hy & Hcls).
  - exact Hload.
  - apply Forall_seqZ. intros; lia.
  - apply length_replicate.
  - apply length_replicate.
  - apply Forall_replicate. unfold class_number. lia.
  - cbn [bind].
    destruct (Hload _ (cifar10_files_test path)) as (xt & yt & -> & Hxt & Hyt & Hct).
    cbn [bind].
    destruct (String.eqb _ _); eexists; (split; [reflexivity |]);
      unfold cifar10_arrays; cbn [x_train y_train x_test y_test];
      rewrite ?length_map; repeat split; congruence.
Qed.

(** C7.  In both CIFAR-10 scripts, on what the CIFAR-10 loaders deliver
    (a class number in 0..9 for every image, and for the files of a data
    directory 10000 images each), loading and preprocessing succeed and
    leave label arrays of one-hot rows of length 10, as many as there
    are image rows: in [load_data] of the AlexNet script, and in [main]
    of the queue script on a machine with a GPU, without [--datadir]
    (only [cifar10.load_data()] is asked to deliver) and with it (only
    the six files under the directory are asked for).  Whatever the
    loaders deliver, label rows that come out of [to_categorical] are
    one-hot rows of length 10, one per class number. *)
Theorem C7_one_hot_labels_aligned_with_images :
  (forall e d,
     Alexnet.cifar10_load_data e = inr d -> cifar10_arrays d ->
     exists y_train y_test,
       Alexnet.load_data e
         = inr (sample_shape d,
                ((scale255 (x_train d), scale255 (x_test d)), (y_train, y_test))) /\
       labelled Alexnet.num_classes (scale255 (x_train d)) y_train /\
       labelled Alexnet.num_classes (scale255 (x_test d)) y_test) /\
  (forall e argv args,
     bind (Tfqueue.parser_ e argv) Tfqueue.read_args = inr args ->
     Tfqueue.get_available_gpus e
       (if truthy (Tfqueue.mgpu args) then Tfqueue.mgpu args else VInt 1) <> [] ->
     match Tfqueue.datadir args with
     | Some path => cifar10_batches (Tfqueue.load_batch e) path
     | None => exists d, Tfqueue.cifar10_load_default e = inr d /\ cifar10_arrays d
     end ->
     exists cfg,
       Tfqueue.configure e argv = inr cfg /\
       Tfqueue.num_classes cfg = 10 /\
       labelled 10 (Tfqueue.cfg_x_train cfg) (Tfqueue.cfg_y_train cfg) /\
       labelled 10 (Tfqueue.cfg_x_test cfg) (Tfqueue.cfg_y_test cfg)) /\
  (forall y rows,
     to_categorical y 10 = inr rows ->
     length rows = length y /\ Forall (one_hot_row 10) rows).
Proof.
  split; [| split; [| exact to_categorical_rows]].
  - intros e d Hd (Htr & Hte & Hytr & Hyte).
    destruct (to_categorical_labels _ _ Htr Hytr) as (ytr & Etr & Ltr).
    destruct (to_categorical_labels _ _ Hte Hyte) as (yte & Ete & Lte).
    exists ytr, yte. unfold Alexnet.load_data, Alexnet.num_classes.
    rewrite Hd. cbn [bind]. rewrite Etr, Ete. auto.
  - intros e argv args Hargs Hgpus Hdata.
    assert (Hd : exists d,
              match Tfqueue.datadir args with
              | Some path => Tfqueue.cifar10_load_data e path
              | None => Tfqueue.cifar10_load_default e
              end = inr d /\ cifar10_arrays d).
    { destruct (Tfqueue.datadir args) as [path |]; [| exact Hdata].
      by apply cifar10_load_data_arrays. }
    destruct Hd as (d & Hd & Harr).
    destruct (preprocess_labels d Harr) as (ytr & yte & Hp & Ltr & Lte).
    unfold Tfqueue.configure. rewrite Hargs. cbn [bind]. rewrite Hd. cbn [bind].
    rewrite floordiv_nonzero.
    + cbn [bind]. rewrite Hp. cbn [bind]. eexists. split; [reflexivity |].
      cbn [Tfqueue.num_classes Tfqueue.cfg_x_train Tfqueue.cfg_y_train
           Tfqueue.cfg_x_test Tfqueue.cfg_y_test]. auto.
    + destruct (Tfqueue.get_available_gpus e _); [congruence | cbn [length]; lia].
Qed.

Lemma data_dir_batches :
  cifar10_batches (Tfqueue.load_batch More.data_dir_env) "/data".
Proof.
  intros fpath Hin. cbn [Tfqueue.load_batch More.data_dir_env].
  unfold More.data_dir_batch_file. rewrite bool_decide_true by exact Hin.
  eexists _, _. split; [reflexivity |].
  rewrite !length_replicate. repeat split.
  apply Forall_replicate. unfold class_number. lia.
Qed.

Lemma sample_arrays (d : dataset) :
  d = Sample.tiny \/ d = Sample.small -> cifar10_arrays d.
Proof.
  unfold cifar10_arrays, class_number.
  intros [-> | ->]; cbn [x_train y_train x_test y_test Sample.tiny Sample.small].
  - repeat split; try reflexivity; repeat constructor; lia.
  - rewrite !length_replicate. repeat split; try reflexivity.
    + apply Forall_replicate. lia.
    + repeat constructor; lia.
Qed.

Lemma C7_one_hot_labels_witness :
  (exists y_train y_test,
     Alexnet.load_data Sample.alexnet_env
       = inr (sample_shape Sample.tiny,
              ((scale255 (x_train Sample.tiny), scale255 (x_test Sample.tiny)),
               (y_train, y_test))) /\
     labelled Alexnet.num_classes (scale255 (x_train Sample.tiny)) y_train /\
     labelled Alexnet.num_classes (scale255 (x_test Sample.tiny)) y_test) /\
  (exists cfg,
     Tfqueue.configure Sample.queue_env [] = inr cfg /\
     Tfqueue.num_classes cfg = 10 /\
     labelled 10 (Tfqueue.cfg_x_train cfg) (Tfqueue.cfg_y_train cfg) /\
     labelled 10 (Tfqueue.cfg_x_test cfg) (Tfqueue.cfg_y_test cfg)) /\
  (exists cfg,
     Tfqueue.configure More.data_dir_env ["--datadir"; "/data"] = inr cfg /\
     Tfqueue.num_classes cfg = 10 /\
     labelled 10 (Tfqueue.cfg_x_train cfg) (Tfqueue.cfg_y_train cfg) /\
     labelled 10 (Tfqueue.cfg_x_test cfg) (Tfqueue.cfg_y_test cfg)).
Proof.
  split; [| split].
  - apply (proj1 C7_one_hot_labels_aligned_with_images Sample.alexnet_env Sample.tiny).
    + reflexivity.
    + apply sample_arrays. by left.
  - apply (proj1 (proj2 C7_one_hot_labels_aligned_with_images) Sample.queue_env []
             (Tfqueue.Args (VInt 0) None 200 false false None)).
    + vm_compute. reflexivity.
    + discriminate.
    + exists Sample.small. split; [reflexivity |]. apply sample_arrays. by right.
  - apply (proj1 (proj2 C7_one_hot_labels_aligned_with_images) More.data_dir_env
             ["--datadir"; "/data"]
             (Tfqueue.Args (VInt 0) None 200 false false (Some "/data"))).
    + vm_compute. reflexivity.
    + discriminate.
    + apply data_dir_batches.
Defined.

(* ===================================================================== *)
(** * Further properties of the scripts *)
(* ===================================================================== *)

Import More.

Lemma hot_column_one_hot (n c : Z) :
  0 <= c < n -> hot_column (one_hot n c) = Some c.
Proof.
  intros Hc. unfold one_hot.
  assert (H : forall len m, 0 <= len -> m <= c < m + len ->
            hot_column (map (fun j => if j =? c then 1 else 0) (seqZ m len)) = Some (c - m)).
  { intros len m Hlen. revert m.
    pattern len. apply natlike_ind; [| | exact Hlen].
    - intros m Hm. lia.
    - intros k Hk IH m Hm. rewrite seqZ_cons by lia. cbn [map hot_column].
      destruct (Z.eqb_spec m c) as [-> | Hne].
      + cbn. f_equal. lia.
      + cbn. replace (Z.pred (Z.succ k)) with k by lia.
        rewrite IH by lia. cbn. f_equal. lia. }
  rewrite H by lia. f_equal. lia.
Qed.

Lemma column_in_range (k : Z) : -10 <= k < 10 -> column 10 k = inr (k mod 10).
Proof.
  intros Hk. unfold column.
  destruct (Z.leb_spec 0 k), (Z.ltb_spec k 10); cbn [andb]; try lia.
  - by rewrite Z.mod_small by lia.
  - destruct (Z.leb_spec (Z.opp 10) k), (Z.ltb_spec k 0); cbn [andb]; try lia.
    rewrite <- (Z.mod_add k 1 10) by lia. by rewrite Z.mod_small by lia.
Qed.

Lemma column_out_of_range (k : Z) : ~ (-10 <= k < 10) -> column 10 k = inl IndexError.
Proof.
  intros Hk. unfold column.
  destruct (Z.leb_spec 0 k), (Z.ltb_spec k 10); cbn [andb]; try lia.
  all: destruct (Z.leb_spec (Z.opp 10) k), (Z.ltb_spec k 0); cbn [andb]; try lia; reflexivity.
Qed.

(** [to_categorical] returns exactly on class numbers in -10..9, and then
    the 1 of each row sits at the class number modulo 10. *)
Lemma to_categorical_readback (y : list Z) :
  (Forall (fun k => -10 <= k < 10) y ->
   exists rows, to_categorical y 10 = inr rows /\
                map hot_column rows = map (fun k => Some (k mod 10)) y) /\
  (~ Forall (fun k => -10 <= k < 10) y -> to_categorical y 10 = inl IndexError).
Proof.
  change (to_categorical y 10) with (categorical_rows 10 y).
  induction y as [| k ys [IHok IHbad]].
  - split; [intros _; exists []; split; reflexivity |].
    intros H. destruct H. constructor.
  - cbn [categorical_rows]. split.
    + intros Hall. apply Forall_cons in Hall as [Hk Hys].
      destruct (IHok Hys) as (rows & -> & Hrows).
      rewrite column_in_range by assumption. cbn [bind].
      eexists. split; [reflexivity |]. cbn [map]. rewrite Hrows.
      rewrite hot_column_one_hot; [reflexivity |]. apply Z.mod_pos_bound. lia.
    + intros Hall.
      destruct (decide (-10 <= k < 10)) as [Hk | Hk].
      * rewrite column_in_range by assumption. cbn [bind].
        rewrite IHbad; [reflexivity |].
        intros Hys. apply Hall. by constructor.
      * rewrite column_out_of_range by assumption. reflexivity.
Qed.

(** X1.  [load_data] returns exactly when every class number the loader
    delivers is in -10..9 (otherwise it raises [IndexError]), and then the
    class number can be read back from each label row: its 1 sits at the
    class number modulo 10. *)
Theorem load_data_labels_read_back (e : Alexnet.env) (d : dataset) :
  Alexnet.cifar10_load_data e = inr d ->
  (Forall (fun k => -10 <= k < 10) (y_train d ++ y_test d) ->
   exists y_train' y_test',
     Alexnet.load_data e
       = inr (sample_shape d,
              ((scale255 (x_train d), scale255 (x_test d)), (y_train', y_test'))) /\
     map hot_column y_train' = map (fun k => Some (k mod 10)) (y_train d) /\
     map hot_column y_test' = map (fun k => Some (k mod 10)) (y_test d)) /\
  (~ Forall (fun k => -10 <= k < 10) (y_train d ++ y_test d) ->
   Alexnet.load_data e = inl IndexError).
Proof.
  intros Hd. unfold Alexnet.load_data, Alexnet.num_classes. rewrite Hd. cbn [bind].
  rewrite Forall_app.
  destruct (to_categorical_readback (y_train d)) as [Htr Htr'].
  destruct (to_categorical_readback (y_test d)) as [Hte Hte'].
  split.
  - intros [H1 H2]. destruct (Htr H1) as (r1 & -> & E1). destruct (Hte H2) as (r2 & -> & E2).
    cbn [bind]. eauto.
  - intros Hnot.
    destruct (decide (Forall (fun k => -10 <= k < 10) (y_train d))) as [H1 | H1].
    + destruct (Htr H1) as (r1 & -> & E1). cbn [bind].
      rewrite Hte'; [reflexivity |]. tauto.
    + rewrite Htr' by assumption. reflexivity.
Qed.

Lemma load_data_labels_read_back_sample :
  exists y_train' y_test',
    Alexnet.load_data Sample.alexnet_env
      = inr (sample_shape Sample.tiny,
             ((scale255 (x_train Sample.tiny), scale255 (x_test Sample.tiny)),
              (y_train', y_test'))) /\
    map hot_column y_train' = map (fun k => Some (k mod 10)) (y_train Sample.tiny) /\
    map hot_column y_test' = map (fun k => Some (k mod 10)) (y_test Sample.tiny).
Proof.
  apply (proj1 (load_data_labels_read_back Sample.alexnet_env Sample.tiny eq_refl)).
  cbn. repeat constructor; lia.
Defined.

(** *** Alexnet main outcome *)



(** *** parse_args exit codes *)

Lemma alexnet_typed_insert (ns : namespace) (a : argument) (s : string) (x : value) :
  alexnet_typed ns -> In a Alexnet.parser -> act a = Store ->
  convert (type a) s = inr x -> alexnet_typed (<[dest a := x]> ns).
Proof.
  intros (b & z1 & z2 & Ha & Hb & He) Hin Hact Hconv. unfold namespace in *.
  cbn in Hin. destruct Hin as [<- | [<- | [<- | [<- | []]]]]; try discriminate Hact.
  - change (dest _) with "augment_data". injection Hconv as <-.
    exists (bool_of_str s), z1, z2. unfold namespace in *; repeat split;
      first [apply lookup_insert_eq | rewrite lookup_insert_ne by discriminate; assumption].
  - change (dest _) with "batch_size". cbn in Hconv.
    destruct (int_of_str s); [discriminate |]. injection Hconv as <-.
    exists b, z, z2. unfold namespace in *; repeat split;
      first [apply lookup_insert_eq | rewrite lookup_insert_ne by discriminate; assumption].
  - change (dest _) with "epochs". cbn in Hconv.
    destruct (int_of_str s); [discriminate |]. injection Hconv as <-.
    exists b, z1, z. unfold namespace in *; repeat split;
      first [apply lookup_insert_eq | rewrite lookup_insert_ne by discriminate; assumption].
Qed.

Lemma convert_exit (t : conv) (s : string) (e : exn) :
  convert t s = inl e -> e = SystemExit 2.
Proof.
  destruct t; cbn; try discriminate.
  destruct (int_of_str s); [| discriminate]. by intros [= <-].
Qed.

Lemma alexnet_parse_tokens_typed (toks : list string) :
  (forall ns, alexnet_typed ns ->
     match parse_tokens Alexnet.parser toks ns with
     | inr ns' => alexnet_typed ns'
     | inl e => e = SystemExit 0 \/ e = SystemExit 2
     end) /\
  (forall t ns, alexnet_typed ns ->
     match parse_tokens Alexnet.parser (t :: toks) ns with
     | inr ns' => alexnet_typed ns'
     | inl e => e = SystemExit 0 \/ e = SystemExit 2
     end).
Proof.
  induction toks as [| v rest [IH1 IH2]].
  - split; [intros ns H; exact H |].
    intros t ns H. cbn [parse_tokens].
    destruct (find_option Alexnet.parser t) as [a |] eqn:F; [| auto].
    apply find_some in F as [Hin _].
    destruct (act a) eqn:Hact; auto.
    + exfalso. cbn in Hin.
      destruct Hin as [<- | [<- | [<- | [<- | []]]]]; discriminate Hact.
    + exfalso. cbn in Hin.
      destruct Hin as [<- | [<- | [<- | [<- | []]]]]; discriminate Hact.
  - split; [exact (IH2 v) |].
    intros t ns H. cbn [parse_tokens].
    destruct (find_option Alexnet.parser t) as [a |] eqn:F; [| auto].
    apply find_some in F as [Hin _].
    destruct (act a) eqn:Hact; auto.
    + destruct (is_value_token v); [| auto].
      destruct (convert (type a) v) as [err | x] eqn:Hconv.
      * right. by apply convert_exit in Hconv.
      * apply IH1. by apply alexnet_typed_insert with v.
    + exfalso. cbn in Hin.
      destruct Hin as [<- | [<- | [<- | [<- | []]]]]; discriminate Hact.
    + exfalso. cbn in Hin.
      destruct Hin as [<- | [<- | [<- | [<- | []]]]]; discriminate Hact.
Qed.

(** X3.  [parse_args] of the AlexNet script either returns its three
    arguments, a boolean and two integers read from the namespace, or
    exits with status 0 (help) or 2 (usage error): no attribute is ever
    missing or of another type. *)
Theorem alexnet_parse_args_exits (argv : list string) :
  match Alexnet.parse_args argv with
  | inr a => exists ns,
      Argparse.parse_args Alexnet.parser argv = inr ns /\
      ns !! "augment_data" = Some (VBool (Alexnet.augment_data a)) /\
      ns !! "batch_size" = Some (VInt (Alexnet.batch_size a)) /\
      ns !! "epochs" = Some (VInt (Alexnet.epochs a))
  | inl e => e = SystemExit 0 \/ e = SystemExit 2
  end.
Proof.
  unfold Alexnet.parse_args, Argparse.parse_args.
  assert (Hd : alexnet_typed (defaults Alexnet.parser)).
  { exists true, 128, 10. repeat split; vm_compute; reflexivity. }
  pose proof (proj1 (alexnet_parse_tokens_typed argv) _ Hd) as H.
  destruct (parse_tokens Alexnet.parser argv (defaults Alexnet.parser)) as [e | ns];
    [exact H |].
  destruct H as (b & z1 & z2 & Ha & Hb & He). cbn [bind]. unfold getattr.
  rewrite Ha, Hb, He. cbn. exists ns. auto.
Qed.

Lemma assign_slice_next {A} (pre data rest : list A) (lo hi : Z) :
  Z.of_nat (length pre) = lo ->
  hi - lo = Z.of_nat (length data) ->
  (length data <= length rest)%nat ->
  assign_slice (pre ++ rest) lo hi data
  = inr ((pre ++ data) ++ drop (length data) rest).
Proof.
  intros Hlo Hhi Hrest. unfold assign_slice. rewrite length_app.
  replace (Z.min (Z.max lo 0) (Z.of_nat (length pre + length rest))) with lo by lia.
  replace (Z.min (Z.max hi 0) (Z.of_nat (length pre + length rest))) with hi by lia.
  replace (Z.max (hi - lo) 0) with (hi - lo) by lia.
  rewrite Hhi, Z.eqb_refl. f_equal.
  rewrite take_app_length' by lia.
  rewrite drop_app_ge by lia.
  replace (Z.to_nat (lo + Z.of_nat (length data)) - length pre)%nat
    with (length data) by lia.
  by rewrite <- app_assoc.
Qed.

(** X4.  On five training files of 10000 images each, the arrays
    [cifar10_load_data] returns are the files' images and class numbers
    (as unsigned bytes) one after the other, in the order of the files: no
    row of the zero-filled arrays is left, and the test arrays are those
    of [test_batch]. *)
Theorem cifar10_load_data_concatenates (e : Tfqueue.env) (path : string)
    (batch : Z -> list image * list Z) (x_test : list image) (y_test : list Z) :
  (forall i, 1 <= i <= 5 ->
     Tfqueue.load_batch e (batch_path path ("data_batch_" +:+ pretty i)) = inr (batch i) /\
     length (batch i).1 = Z.to_nat 10000 /\
     length (batch i).2 = Z.to_nat 10000) ->
  Tfqueue.load_batch e (batch_path path "test_batch") = inr (x_test, y_test) ->
  let x_train := concat (map (fun i => (batch i).1) [1; 2; 3; 4; 5]) in
  let y_train := concat (map (fun i => map (fun k => k mod 256) (batch i).2)
                             [1; 2; 3; 4; 5]) in
  Tfqueue.cifar10_load_data e path
  = inr (if String.eqb (Tfqueue.image_data_format e) "channels_last"
         then Dataset [32; 32; 3] (map Transposed x_train) y_train
                      (map Transposed x_test) y_test
         else Dataset [3; 32; 32] x_train y_train x_test y_test).
Proof.
  intros Hbatch Htest x_train y_train.
  unfold Tfqueue.cifar10_load_data.
  change (seqZ 1 5) with [1; 2; 3; 4; 5].
  set (path_ := path_join path "cifar-10-batches-py").
  assert (Hb : forall i, 1 <= i <= 5 ->
            Tfqueue.load_batch e (path_join path_ ("data_batch_" +:+ pretty i))
            = inr ((batch i).1, (batch i).2) /\
            length (batch i).1 = Z.to_nat 10000 /\
            length (batch i).2 = Z.to_nat 10000).
  { intros i Hi. destruct (Hbatch i Hi) as (H1 & H2 & H3).
    unfold batch_path in H1. fold path_ in H1. rewrite H1. by destruct (batch i). }
  destruct (Hb 1) as (E1 & X1 & Y1); [lia |].
  destruct (Hb 2) as (E2 & X2 & Y2); [lia |].
  destruct (Hb 3) as (E3 & X3 & Y3); [lia |].
  destruct (Hb 4) as (E4 & X4 & Y4); [lia |].
  destruct (Hb 5) as (E5 & X5 & Y5); [lia |].
  cbn [Tfqueue.load_train_batches].
  rewrite E1. cbn [bind].
  rewrite <- (app_nil_l (replicate (Z.to_nat 50000) Zero)).
  rewrite <- (app_nil_l (replicate (Z.to_nat 50000) 0)).
  rewrite !assign_slice_next
    by (rewrite ?length_map, ?length_replicate; cbn [length]; lia).
  cbn [bind]. rewrite E2. cbn [bind].
  rewrite !assign_slice_next
    by (rewrite ?length_app, ?length_drop, ?length_map, ?length_replicate; cbn [length]; lia).
  cbn [bind]. rewrite E3. cbn [bind].
  rewrite !assign_slice_next
    by (rewrite ?length_app, ?length_drop, ?length_map, ?length_replicate; cbn [length]; lia).
  cbn [bind]. rewrite E4. cbn [bind].
  rewrite !assign_slice_next
    by (rewrite ?length_app, ?length_drop, ?length_map, ?length_replicate; cbn [length]; lia).
  cbn [bind]. rewrite E5. cbn [bind].
  rewrite !assign_slice_next
    by (rewrite ?length_app, ?length_drop, ?length_map, ?length_replicate; cbn [length]; lia).
  cbn [bind Tfqueue.load_train_batches]. unfold batch_path in Htest. fold path_ in Htest.
  rewrite Htest. cbn [bind].
  rewrite !drop_drop.
  rewrite (drop_ge (replicate _ Zero))
    by (rewrite ?length_map, ?length_replicate; lia).
  rewrite (drop_ge (replicate _ 0))
    by (rewrite ?length_map, ?length_replicate; lia).
  subst x_train y_train. cbn [concat map].
  rewrite !app_nil_r, !app_nil_l, <- !app_assoc.
  destruct (String.eqb _ _); reflexivity.
Qed.

Lemma cifar10_load_data_concatenates_sample :
  let images := replicate (Z.to_nat 10000) (Raw [0]) in
  let classes := replicate (Z.to_nat 10000) 7 in
  Tfqueue.cifar10_load_data Sample.queue_env "/data"
  = inr (Dataset [32; 32; 3]
           (map Transposed (concat (map (fun _ : Z => images) [1; 2; 3; 4; 5])))
           (concat (map (fun _ : Z => map (fun k => k mod 256) classes) [1; 2; 3; 4; 5]))
           (map Transposed images) classes).
Proof.
  intros images classes.
  apply (cifar10_load_data_concatenates Sample.queue_env "/data"
           (fun _ => (images, classes)) images classes).
  - intros i Hi. repeat split; apply length_replicate.
  - reflexivity.
Defined.

(** X5.  [cifar10_load_data] reads the six files of the CIFAR-10
    directory and the image data format, and nothing else of its
    environment. *)
Theorem cifar10_load_data_reads_six_files (e1 e2 : Tfqueue.env) (path : string) :
  (forall name, name ∈ batch_names ->
     Tfqueue.load_batch e1 (batch_path path name)
     = Tfqueue.load_batch e2 (batch_path path name)) ->
  Tfqueue.image_data_format e1 = Tfqueue.image_data_format e2 ->
  Tfqueue.cifar10_load_data e1 path = Tfqueue.cifar10_load_data e2 path.
Proof.
  intros Hfiles Hformat. unfold Tfqueue.cifar10_load_data.
  change (seqZ 1 5) with [1; 2; 3; 4; 5].
  cbn [Tfqueue.load_train_batches]. unfold batch_path, batch_names in Hfiles.
  change ("data_batch_" +:+ pretty 1) with "data_batch_1".
  change ("data_batch_" +:+ pretty 2) with "data_batch_2".
  change ("data_batch_" +:+ pretty 3) with "data_batch_3".
  change ("data_batch_" +:+ pretty 4) with "data_batch_4".
  change ("data_batch_" +:+ pretty 5) with "data_batch_5".
  rewrite !(Hfiles "data_batch_1"), !(Hfiles "data_batch_2"), !(Hfiles "data_batch_3"),
    !(Hfiles "data_batch_4"), !(Hfiles "data_batch_5"), !(Hfiles "test_batch"), Hformat
    by (rewrite !elem_of_cons; auto 10).
  reflexivity.
Qed.

Lemma cifar10_load_data_reads_six_files_sample :
  Tfqueue.cifar10_load_data Sample.queue_env "/data"
  = Tfqueue.cifar10_load_data no_gpu_env "/data".
Proof.
  apply cifar10_load_data_reads_six_files.
  - intros name Hname. reflexivity.
  - reflexivity.
Defined.







(** X7.  When [get_available_gpus] finds no device, [main] raises
    [ZeroDivisionError] on [train_samples // batch_size], after loading
    the data and before any call into the framework: the world is left
    as it was. *)
Theorem main_without_gpu_divides_by_zero (e : Tfqueue.env) (argv : list string)
    (args : Tfqueue.args) (d : dataset) (w : Tfqueue.world) :
  bind (Tfqueue.parser_ e argv) Tfqueue.read_args = inr args ->
  match Tfqueue.datadir args with
  | Some path => Tfqueue.cifar10_load_data e path
  | None => Tfqueue.cifar10_load_default e
  end = inr d ->
  Tfqueue.get_available_gpus e
    (if truthy (Tfqueue.mgpu args) then Tfqueue.mgpu args else VInt 1) = [] ->
  Tfqueue.main e argv w = (w, inl ZeroDivisionError).
Proof.
  intros Hargs Hdata Hgpus.
  unfold Tfqueue.main, Tfqueue.configure, mbind, lift.
  rewrite Hargs. cbn [bind]. rewrite Hgpus, Hdata. reflexivity.
Qed.

Lemma main_without_gpu_sample :
  Tfqueue.main no_gpu_env [] (Tfqueue.boot ∅) = (Tfqueue.boot ∅, inl ZeroDivisionError).
Proof.
  apply (main_without_gpu_divides_by_zero no_gpu_env []
           (Tfqueue.Args (VInt 0) None 200 false false None) Sample.small).
  - vm_compute. reflexivity.
  - reflexivity.
  - reflexivity.
Defined.

Ltac use_lookups :=
  repeat match goal with
         | H : _ !! _ = _ |- _ => rewrite H
         end.

Lemma session_outcome (e : Tfqueue.env) (cfg : Tfqueue.config)
    (fs : gmap string weights) (w : Tfqueue.world) (r : result unit) :
  Tfqueue.session e cfg (Tfqueue.boot fs) = (w, r) ->
  Tfqueue.files w
    = match Tfqueue.cfg_checkpt cfg with
      | None =>
          <[Tfqueue.checkptfile :=
              if trains cfg then Trained Initialized (Tfqueue.cfg_epochs cfg)
              else Initialized]> fs
      | Some path =>
          if trains cfg
          then <[path := Trained (default Initialized (fs !! path)) (Tfqueue.best_epoch e)]> fs
          else fs
      end /\
  r = match Tfqueue.files w !! Tfqueue.checkptfile with
      | Some _ => inr tt
      | None => inl (IOError Tfqueue.checkptfile)
      end /\
  omap evaluated_weights (Tfqueue.log w)
    = match Tfqueue.files w !! Tfqueue.checkptfile with
      | Some content => [content]
      | None => []
      end /\
  map call_name (Tfqueue.log w)
    = ["tf.train.batch"; "tf.train.batch"]
      ++ (if Tfqueue.cfg_logdevp cfg then ["set_session"] else [])
      ++ match Tfqueue.cfg_checkpt cfg with
         | Some path => match fs !! path with Some _ => ["load_weights"] | None => [] end
         | None => []
         end
      ++ ["compile"; "tf.train.start_queue_runners"; "tf.train.start_queue_runners";
          "fit"; "print_results"]
      ++ (if Tfqueue.checkpt_flag cfg then [] else ["save_weights"])
      ++ ["request_stop"; "join"; "clear_session"; "load_weights"]
      ++ match r with
         | inr _ => ["compile"]
                    ++ (if Tfqueue.data_augmentation cfg then ["sess.run"; "sess.run"] else [])
                    ++ ["evaluate"]
         | inl _ => []
         end.
Proof.
  unfold trains.
  destruct cfg as [fp gd ng bs nc ep da lg ts tes sp sh xt yt xte yte].
  unfold Tfqueue.checkpt_flag.
  cbn [Tfqueue.cfg_checkpt Tfqueue.cfg_epochs Tfqueue.steps_per_epoch
       Tfqueue.cfg_logdevp Tfqueue.data_augmentation].
  destruct lg, da, fp as [p |]; run_session.
  all: try (destruct (fs !! p) eqn:E; run_session; rewrite ?E).
  all: destruct ((1 <=? ep) && (1 <=? sp)); run_session.
  all: split_lookup.
  all: intros [= <- <-]; cbn [Tfqueue.log Tfqueue.files].
  all: use_lookups; cbn [default].
  all: repeat (split; [reflexivity |]).
  all: reflexivity.
Qed.


(** X9.  Without a checkpoint flag a session always completes: it saves
    the weights of the fitted model to [checkptfile], and the evaluation
    model loads and is evaluated on exactly those weights. *)
Theorem session_without_checkpt_evaluates_what_it_saved
    (e : Tfqueue.env) (cfg : Tfqueue.config) (fs : gmap string weights) :
  Tfqueue.cfg_checkpt cfg = None ->
  let w := fst (Tfqueue.session e cfg (Tfqueue.boot fs)) in
  let final := if trains cfg then Trained Initialized (Tfqueue.cfg_epochs cfg)
               else Initialized in
  snd (Tfqueue.session e cfg (Tfqueue.boot fs)) = inr tt /\
  Tfqueue.files w !! Tfqueue.checkptfile = Some final /\
  omap evaluated_weights (Tfqueue.log w) = [final].
Proof.
  intros Hnone w final. subst w final.
  destruct (Tfqueue.session e cfg (Tfqueue.boot fs)) as [w r] eqn:Hrun.
  destruct (session_outcome _ _ _ _ _ Hrun) as (Hfiles & Hr & Hev & _).
  cbn [fst snd]. rewrite Hnone in Hfiles.
  assert (Hlook : Tfqueue.files w !! Tfqueue.checkptfile
                  = Some (if trains cfg then Trained Initialized (Tfqueue.cfg_epochs cfg)
                          else Initialized)).
  { rewrite Hfiles. apply lookup_insert_eq. }
  rewrite Hlook in Hr, Hev. auto.
Qed.

Lemma session_without_checkpt_sample :
  let w := fst (Tfqueue.session Sample.queue_env (sample_config None 2) (Tfqueue.boot ∅)) in
  snd (Tfqueue.session Sample.queue_env (sample_config None 2) (Tfqueue.boot ∅)) = inr tt /\
  Tfqueue.files w !! Tfqueue.checkptfile = Some (Trained Initialized 2) /\
  omap evaluated_weights (Tfqueue.log w) = [Trained Initialized 2].
Proof.
  exact (session_without_checkpt_evaluates_what_it_saved
           Sample.queue_env (sample_config None 2) ∅ eq_refl).
Defined.

(** X10.  With [checkptfile] as checkpoint path and at least one batch
    trained, a session completes: training starts from the weights of
    the file when there is one, the checkpoint overwrites the file, and
    the evaluation runs on the checkpointed weights. *)
Theorem session_with_checkpt_resumes_and_evaluates_best
    (e : Tfqueue.env) (cfg : Tfqueue.config) (fs : gmap string weights) :
  Tfqueue.cfg_checkpt cfg = Some Tfqueue.checkptfile ->
  trains cfg = true ->
  let w := fst (Tfqueue.session e cfg (Tfqueue.boot fs)) in
  let best := Trained (default Initialized (fs !! Tfqueue.checkptfile))
                      (Tfqueue.best_epoch e) in
  snd (Tfqueue.session e cfg (Tfqueue.boot fs)) = inr tt /\
  Tfqueue.files w !! Tfqueue.checkptfile = Some best /\
  omap evaluated_weights (Tfqueue.log w) = [best].
Proof.
  intros Hpath Htrains w best. subst w best.
  destruct (Tfqueue.session e cfg (Tfqueue.boot fs)) as [w r] eqn:Hrun.
  destruct (session_outcome _ _ _ _ _ Hrun) as (Hfiles & Hr & Hev & _).
  cbn [fst snd]. rewrite Hpath, Htrains in Hfiles.
  assert (Hlook : Tfqueue.files w !! Tfqueue.checkptfile
                  = Some (Trained (default Initialized (fs !! Tfqueue.checkptfile))
                                  (Tfqueue.best_epoch e))).
  { rewrite Hfiles. apply lookup_insert_eq. }
  rewrite Hlook in Hr, Hev. auto.
Qed.

Lemma session_with_checkpt_sample :
  let cfg := sample_config (Some Tfqueue.checkptfile) 2 in
  let fs : gmap string weights := {[ Tfqueue.checkptfile := Stored 7 ]} in
  let w := fst (Tfqueue.session Sample.queue_env cfg (Tfqueue.boot fs)) in
  snd (Tfqueue.session Sample.queue_env cfg (Tfqueue.boot fs)) = inr tt /\
  Tfqueue.files w !! Tfqueue.checkptfile = Some (Trained (Stored 7) 1) /\
  omap evaluated_weights (Tfqueue.log w) = [Trained (Stored 7) 1].
Proof.
  exact (session_with_checkpt_resumes_and_evaluates_best
           Sample.queue_env (sample_config (Some Tfqueue.checkptfile) 2)
           {[ Tfqueue.checkptfile := Stored 7 ]} eq_refl eq_refl).
Defined.

Lemma checkptfile_file_name : file_name Tfqueue.checkptfile = true.
Proof. reflexivity. Qed.





(** *** label rows and the output layer *)

Lemma one_hot_rows_width (n : Z) (rows : list (list Z)) :
  Forall (one_hot_row n) rows -> Forall (fun row => Z.of_nat (length row) = n) rows.
Proof. intros H. eapply Forall_impl; [exact H |]. by intros row [Hlen _]. Qed.

(** X13.  In both CIFAR-10 scripts the label rows are as wide as the
    model's last [Dense] layer: the rows [load_data] (or [main]) produces
    have [num_classes] columns, the units of the output layer of
    [create_model] (or [make_model]). *)
Theorem label_rows_fit_the_output_layer :
  (forall e shape xs y_train y_test log,
     Alexnet.load_data e = inr (shape, (xs, (y_train, y_test))) ->
     exists inp layers log',
       Alexnet.create_model shape log = (log', inr (Model [inp] [(inp, layers)])) /\
       output_units layers = Some Alexnet.num_classes /\
       Forall (fun row => Z.of_nat (length row) = Alexnet.num_classes)
              (y_train ++ y_test)) /\
  (forall e argv cfg,
     Tfqueue.configure e argv = inr cfg ->
     output_units (Tfqueue.make_model_layers (Tfqueue.num_classes cfg))
       = Some (Tfqueue.num_classes cfg) /\
     Forall (fun row => Z.of_nat (length row) = Tfqueue.num_classes cfg)
            (Tfqueue.cfg_y_train cfg ++ Tfqueue.cfg_y_test cfg)).
Proof.
  split.
  - intros e shape xs ytr yte log H.
    unfold Alexnet.load_data, Alexnet.num_classes in *.
    bind_inv H. bind_inv H. bind_inv H. injection H as _ _ <- <-.
    eexists _, _, _. split; [reflexivity |]. split; [reflexivity |].
    apply Forall_app. split; apply one_hot_rows_width;
      eapply to_categorical_rows; eassumption.
  - intros e argv cfg Hcfg.
    destruct (configure_inv _ _ _ Hcfg) as (_ & _ & -> & _ & _ & d & _ & Hpre).
    split; [reflexivity |].
    unfold Tfqueue.preprocess in Hpre. bind_inv Hpre. bind_inv Hpre.
    injection Hpre as _ <- _ <-.
    apply Forall_app. split; apply one_hot_rows_width;
      eapply to_categorical_rows; eassumption.
Qed.

Lemma label_rows_fit_sample :
  exists inp layers log',
    Alexnet.create_model [32; 32; 3] [] = (log', inr (Model [inp] [(inp, layers)])) /\
    output_units layers = Some Alexnet.num_classes /\
    Forall (fun row => Z.of_nat (length row) = Alexnet.num_classes)
           ([one_hot 10 3; one_hot 10 9; one_hot 10 0] ++ [one_hot 10 9; one_hot 10 0]).
Proof.
  apply (proj1 label_rows_fit_the_output_layer Sample.alexnet_env [32; 32; 3]
           (scale255 (x_train Sample.tiny), scale255 (x_test Sample.tiny))).
  reflexivity.
Defined.

Lemma alexnet_no_optional (t : string) (a : argument) :
  find_option Alexnet.parser t = Some a ->
  act a = Help \/ act a = Store.
Proof.
  intros F. apply find_some in F as [Hin _]. cbn in Hin.
  destruct Hin as [<- | [<- | [<- | [<- | []]]]]; auto.
Qed.

Lemma alexnet_parse_tokens_app (l1 : list string) :
  (forall l2 ns ns1,
     parse_tokens Alexnet.parser l1 ns = inr ns1 ->
     parse_tokens Alexnet.parser (l1 ++ l2) ns = parse_tokens Alexnet.parser l2 ns1) /\
  (forall t l2 ns ns1,
     parse_tokens Alexnet.parser (t :: l1) ns = inr ns1 ->
     parse_tokens Alexnet.parser ((t :: l1) ++ l2) ns = parse_tokens Alexnet.parser l2 ns1).
Proof.
  induction l1 as [| v rest [IH1 IH2]].
  - split; [by intros l2 ns ns1 [= ->] |].
    intros t l2 ns ns1. cbn [parse_tokens app].
    destruct (find_option Alexnet.parser t) as [a |] eqn:F; [| discriminate].
    destruct (alexnet_no_optional _ _ F) as [-> | ->]; discriminate.
  - split; [exact (IH2 v) |].
    intros t l2 ns ns1. cbn [parse_tokens app].
    destruct (find_option Alexnet.parser t) as [a |] eqn:F; [| discriminate].
    destruct (alexnet_no_optional _ _ F) as [-> | ->]; [discriminate |].
    destruct (is_value_token v); [| discriminate].
    destruct (convert (type a) v); [discriminate |].
    apply IH1.
Qed.

Lemma alexnet_parse_args_inr (argv : list string) (a : Alexnet.args) :
  Alexnet.parse_args argv = inr a ->
  exists ns,
    parse_tokens Alexnet.parser argv (defaults Alexnet.parser) = inr ns /\
    ns !! "augment_data" = Some (VBool (Alexnet.augment_data a)) /\
    ns !! "batch_size" = Some (VInt (Alexnet.batch_size a)) /\
    ns !! "epochs" = Some (VInt (Alexnet.epochs a)).
Proof.
  unfold Alexnet.parse_args, Argparse.parse_args.
  assert (Hd : alexnet_typed (defaults Alexnet.parser)).
  { exists true, 128, 10. repeat split; vm_compute; reflexivity. }
  pose proof (proj1 (alexnet_parse_tokens_typed argv) _ Hd) as H.
  destruct (parse_tokens Alexnet.parser argv (defaults Alexnet.parser)) as [e | ns];
    [discriminate |].
  destruct H as (b & z1 & z2 & Ha & Hb & He). cbn [bind]. unfold getattr.
  rewrite Ha, Hb, He. cbn. intros [= <-]. exists ns. auto.
Qed.

Lemma alexnet_read_namespace (ns : namespace) (b : bool) (z1 z2 : Z) :
  ns !! "augment_data" = Some (VBool b) ->
  ns !! "batch_size" = Some (VInt z1) ->
  ns !! "epochs" = Some (VInt z2) ->
  bind (getattr ns "augment_data") (fun a =>
  bind (bind (getattr ns "batch_size") Alexnet.as_int) (fun b =>
  bind (bind (getattr ns "epochs") Alexnet.as_int) (fun e =>
  inr (Alexnet.Args (truthy a) b e)))) = inr (Alexnet.Args b z1 z2).
Proof. intros Ha Hb He. unfold getattr. rewrite Ha, Hb, He. reflexivity. Qed.

(** X14. Options of [alexnet_cifar10.py] given again: when a command line
    is accepted, the same line followed by one more [--epochs],
    [--batch-size] or [--augment-data] with a value is accepted too, the
    later value replaces the earlier one and the other two arguments keep
    what the first line gave them.  The value of [--augment-data] is read
    by [bool], so it is [True] for every non-empty string. *)
Theorem alexnet_later_option_wins (argv : list string) (a : Alexnet.args)
    (s : string) :
  Alexnet.parse_args argv = inr a ->
  is_value_token s = true ->
  (forall n, int_of_str s = inr n ->
     Alexnet.parse_args (argv ++ ["--epochs"; s])
       = inr (Alexnet.Args (Alexnet.augment_data a) (Alexnet.batch_size a) n) /\
     Alexnet.parse_args (argv ++ ["--batch-size"; s])
       = inr (Alexnet.Args (Alexnet.augment_data a) n (Alexnet.epochs a))) /\
  Alexnet.parse_args (argv ++ ["--augment-data"; s])
    = inr (Alexnet.Args (bool_of_str s) (Alexnet.batch_size a) (Alexnet.epochs a)).
Proof.
  intros Ha Hs.
  destruct (alexnet_parse_args_inr _ _ Ha) as (ns & Hns & Haug & Hb & He).
  unfold Alexnet.parse_args, Argparse.parse_args. unfold namespace in *.
  rewrite !(proj1 (alexnet_parse_tokens_app argv) _ _ _ Hns).
  change (parse_tokens Alexnet.parser ["--epochs"; s] ns)
    with (if is_value_token s
          then match convert TypeInt s with
               | inr x => inr (<["epochs" := x]> ns)
               | inl e => inl e
               end
          else inl (SystemExit 2)).
  change (parse_tokens Alexnet.parser ["--batch-size"; s] ns)
    with (if is_value_token s
          then match convert TypeInt s with
               | inr x => inr (<["batch_size" := x]> ns)
               | inl e => inl e
               end
          else inl (SystemExit 2)).
  change (parse_tokens Alexnet.parser ["--augment-data"; s] ns)
    with (if is_value_token s
          then inr (<["augment_data" := VBool (bool_of_str s)]> ns)
          else inl (SystemExit 2)).
  rewrite Hs. unfold convert. split; [intros n Hn; rewrite Hn; cbn [bind]; split |];
    apply alexnet_read_namespace; unfold namespace in *;
    first [apply lookup_insert_eq
          | rewrite lookup_insert_ne by discriminate; assumption].
Qed.

Lemma alexnet_later_option_wins_sample :
  (Alexnet.parse_args (["-e"; "3"; "-b"; "64"] ++ ["--epochs"; "7"])
     = inr (Alexnet.Args true 64 7) /\
   Alexnet.parse_args (["-e"; "3"; "-b"; "64"] ++ ["--batch-size"; "7"])
     = inr (Alexnet.Args true 7 3)) /\
  Alexnet.parse_args (["-e"; "3"; "-b"; "64"] ++ ["--augment-data"; "7"])
    = inr (Alexnet.Args true 64 3).
Proof.
  refine (let H := alexnet_later_option_wins ["-e"; "3"; "-b"; "64"]
                     (Alexnet.Args true 64 3) "7" eq_refl eq_refl in
          conj (proj1 H 7 eq_refl) (proj2 H)).
Defined.
